(** * BinanceBot: the position monitor, the price feed and the signed API client

    A shallow embedding of [src/main.py] and [src/app_config.py].

    - Python's [decimal.Decimal] (finite values, default context: 28
      significant digits, ROUND_HALF_EVEN) is a coefficient and a power of
      ten; its arithmetic is written out with the rounding step.
    - Python's [float] is a binary64 value, a mantissa and a power of two;
      [float(str)] rounds the decimal numeral to the nearest such value.
    - Awaited I/O (HTTP responses, the clock, the websocket, the shared price
      cell as the monitor sees it at each tick) is an explicit environment;
      what the code does to the outside world is a trace of events. *)

From Stdlib Require Import ZArith QArith Qabs Qpower Bool List Ascii String Lia Lqa.
From Stdlib Require Import Numbers.DecimalString.
Import ListNotations.

Set Warnings "-register-all".

Local Open Scope Z_scope.

(** ** Exceptions and results *)

Inductive PyExc : Type :=
| TypeError
| KeyError
| IndexError
| Overflow.

(** What a call does: it returns, it raises, or it leaves the fragment of
    Python this development models (a spelling of a number or a JSON text that
    the parsers below do not read). *)
Inductive result (A : Type) : Type :=
| Ok (a : A)
| Raise (e : PyExc)
| Unmodelled.
Arguments Ok {A} a.
Arguments Raise {A} e.
Arguments Unmodelled {A}.

Definition bind {A B : Type} (r : result A) (k : A -> result B) : result B :=
  match r with
  | Ok a => k a
  | Raise e => Raise e
  | Unmodelled => Unmodelled
  end.

Notation "x <- r ;; k" := (bind r (fun x => k))
  (at level 61, r at next level, right associativity).

Definition of_option {A : Type} (o : option A) : result A :=
  match o with
  | Some a => Ok a
  | None => Unmodelled
  end.

(** ** decimal.Decimal *)

Module Dec.

(** A finite decimal [coef * 10 ^ dexp].  The sign is the sign of [coef]; the
    special values (NaN, the infinities) and the sign of a zero are not
    represented. *)
Record Decimal : Type := mk { coef : Z; dexp : Z }.

(** [getcontext().prec] of the default context. *)
Definition prec : Z := 28.

Fixpoint ndigits_fuel (fuel : nat) (n : Z) : Z :=
  match fuel with
  | O => 1
  | S f => if n <? 10 then 1 else 1 + ndigits_fuel f (n / 10)
  end.

(** [len(str(n))] for [0 <= n]. *)
Definition ndigits (n : Z) : Z :=
  ndigits_fuel (S (Z.to_nat (Z.log2 n))) n.

(** ROUND_HALF_EVEN of [n / 10 ^ k] for [0 <= n], [0 < k]. *)
Definition div_half_even (n k : Z) : Z :=
  let p := 10 ^ k in
  let q := n / p in
  let r := n mod p in
  let half := 5 * 10 ^ (k - 1) in
  if (half <? r) || ((r =? half) && Z.odd q) then q + 1 else q.

(** [Decimal._fix] between the exponent limits: round to [prec] significant
    digits; a value that fits is left as it is.  The limits Emin and Emax of
    the context are not looked at here: [DefaultContext.fix_], below, has
    them, and is this function on the values [DefaultContext.in_range]. *)
Definition fix_ (d : Decimal) : Decimal :=
  let a := Z.abs (coef d) in
  let n := ndigits a in
  if n <=? prec then d
  else
    let k := n - prec in
    let q := div_half_even a k in
    if q =? 10 ^ prec
    then mk (Z.sgn (coef d) * 10 ^ (prec - 1)) (dexp d + k + 1)
    else mk (Z.sgn (coef d) * q) (dexp d + k).

(** The exact operations, before rounding. *)
Definition mul_exact (a b : Decimal) : Decimal :=
  mk (coef a * coef b) (dexp a + dexp b).

Definition align (a : Decimal) (e : Z) : Z := coef a * 10 ^ (dexp a - e).

Definition add_exact (a b : Decimal) : Decimal :=
  let e := Z.min (dexp a) (dexp b) in
  mk (align a e + align b e) e.

Definition neg (a : Decimal) : Decimal := mk (- coef a) (dexp a).

Definition sub_exact (a b : Decimal) : Decimal := add_exact a (neg b).

(** [a * b], [a + b], [a - b] in the default context. *)
Definition mul (a b : Decimal) : Decimal := fix_ (mul_exact a b).
Definition add (a b : Decimal) : Decimal := fix_ (add_exact a b).
Definition sub (a b : Decimal) : Decimal := fix_ (sub_exact a b).

(** Comparison is numeric: both sides are brought to the smaller exponent. *)
Definition compare (a b : Decimal) : comparison :=
  let e := Z.min (dexp a) (dexp b) in
  Z.compare (align a e) (align b e).

Definition leb (a b : Decimal) : bool :=
  match compare a b with Gt => false | _ => true end.
Definition geb (a b : Decimal) : bool := leb b a.
Definition ltb (a b : Decimal) : bool :=
  match compare a b with Lt => true | _ => false end.
Definition eqb (a b : Decimal) : bool :=
  match compare a b with Eq => true | _ => false end.

(** [bool(d)]: a decimal is falsy exactly when it is zero. *)
Definition truthy (d : Decimal) : bool := negb (coef d =? 0).

Definition of_Z (n : Z) : Decimal := mk n 0.
Definition one : Decimal := of_Z 1.

(** The rational a decimal denotes. *)
Definition to_Q (d : Decimal) : Q := inject_Z (coef d) * (10 # 1) ^ dexp d.

(** The coefficient has at most [prec] digits: [fix_] leaves the value. *)
Definition fits (d : Decimal) : bool := ndigits (Z.abs (coef d)) <=? prec.

(** Half a unit in the last of [prec] digits, relative to the value:
    [5E-28]. *)
Definition half_ulp : Q := 1 # 2000000000000000000000000000.

End Dec.

(** ** float *)

Module Float.

(** A finite binary64 value [mant * 2 ^ bexp]. *)
Record float : Type := mk { mant : Z; bexp : Z }.

(** [floor (log2 (n / d))] for [0 < n], [0 < d]. *)
Definition log2_ratio (n d : Z) : Z :=
  let t := Z.log2 n - Z.log2 d in
  let below :=
    if 0 <=? t then n <? d * 2 ^ t else n * 2 ^ (- t) <? d in
  if below then t - 1 else t.

(** The binary64 value nearest to [n / d] ([0 <= n], [0 < d]), ties to the
    even mantissa; [None] when the result overflows to infinity. *)
Definition round_ratio (n d : Z) : option float :=
  if n =? 0 then Some (mk 0 0)
  else
    let e := Z.max (-1074) (log2_ratio n d - 52) in
    let num := n * 2 ^ (Z.max 0 (- e)) in
    let den := d * 2 ^ (Z.max 0 e) in
    let q := num / den in
    let r := num mod den in
    let m := if (den <? 2 * r) || ((2 * r =? den) && Z.odd q) then q + 1 else q in
    if 2 ^ 1024 <=? m * 2 ^ (Z.max 0 e) then None else Some (mk m e).

Definition neg (f : float) : float := mk (- mant f) (bexp f).

(** [f.as_integer_ratio()] for [0 <= f]: the fraction in lowest terms, its
    denominator given by its exponent [k] (the denominator is [2 ^ k]). *)
Fixpoint lowest_terms (fuel : nat) (m k : Z) : Z * Z :=
  match fuel with
  | O => (m, k)
  | S f => if (0 <? k) && Z.even m && negb (m =? 0)
           then lowest_terms f (m / 2) (k - 1)
           else (m, k)
  end.

Definition as_integer_ratio (f : float) : Z * Z :=
  if 0 <=? bexp f then (mant f * 2 ^ bexp f, 0)
  else if mant f =? 0 then (0, 0)
  else lowest_terms (Z.to_nat (- bexp f)) (mant f) (- bexp f).

Definition to_Q (f : float) : Q := inject_Z (mant f) * (2 # 1) ^ bexp f.

End Float.

(** [Decimal(f)] for a float [f]: the exact conversion
    ([Decimal.from_float]): with [|f| = n / 2 ^ k] in lowest terms the result
    has coefficient [n * 5 ^ k] and exponent [- k]. *)
Definition Decimal_of_float (f : Float.float) : Dec.Decimal :=
  let '(n, k) := Float.as_integer_ratio (Float.mk (Z.abs (Float.mant f)) (Float.bexp f)) in
  Dec.mk (Z.sgn (Float.mant f) * (n * 5 ^ k)) (- k).

(** ** Numerals and their text *)

Local Open Scope string_scope.
Local Open Scope Z_scope.

(** [str(n)] for an int. *)
Definition str_of_Z (n : Z) : string := NilZero.string_of_int (Z.to_int n).

Definition is_digit (c : ascii) : bool :=
  let n := Z.of_nat (nat_of_ascii c) in (48 <=? n) && (n <=? 57).

Definition digit_val (c : ascii) : Z := Z.of_nat (nat_of_ascii c) - 48.

(** Reads the longest run of digits: its value after [acc], how many digits
    were read after [cnt], and the rest of the text. *)
Fixpoint read_digits (s : string) (acc cnt : Z) : Z * Z * string :=
  match s with
  | String c s' =>
      if is_digit c then read_digits s' (10 * acc + digit_val c) (cnt + 1)
      else (acc, cnt, s)
  | EmptyString => (acc, cnt, s)
  end.

(** Reads an optional sign: [true] for a minus. *)
Definition read_sign (s : string) : bool * string :=
  match s with
  | String "-" s' => (true, s')
  | String "+" s' => (false, s')
  | _ => (false, s)
  end.

(** A finite numeral [(-1)^neg * coef * 10^exp]. *)
Record numeral : Type := mkNumeral { num_neg : bool; num_coef : Z; num_exp : Z }.

(** The numerals [sign digits [. digits] [e sign digits]] that both
    [Decimal(str)] and [float(str)] read.  The other spellings Python takes
    (white space around, underscores, [inf], [nan]) are outside this
    grammar. *)
Definition parse_numeral (s : string) : option numeral :=
  let '(sg, s1) := read_sign s in
  let '(ip, ni, s2) := read_digits s1 0 0 in
  let '(co, nf, s3) :=
    match s2 with
    | String "." s2' => read_digits s2' ip 0
    | _ => (ip, 0, s2)
    end in
  if ni + nf =? 0 then None
  else
    match s3 with
    | EmptyString => Some (mkNumeral sg co (- nf))
    | String c s4 =>
        if (c =? "e")%char || (c =? "E")%char then
          let '(esg, s5) := read_sign s4 in
          let '(ev, ne, s6) := read_digits s5 0 0 in
          match s6 with
          | EmptyString =>
              if ne =? 0 then None
              else Some (mkNumeral sg co ((if esg then - ev else ev) - nf))
          | _ => None
          end
        else None
    end.

(** [Decimal(s)] for a string: exact, whatever the number of digits. *)
Definition Decimal_of_string (s : string) : option Dec.Decimal :=
  match parse_numeral s with
  | Some n => Some (Dec.mk (if num_neg n then - num_coef n else num_coef n) (num_exp n))
  | None => None
  end.

(** [float(s)] for a string: the nearest binary64 value ([None]: not a
    numeral of the grammar above, or too large for a finite float). *)
Definition float_of_string (s : string) : option Float.float :=
  match parse_numeral s with
  | Some n =>
      let r :=
        if 0 <=? num_exp n
        then Float.round_ratio (num_coef n * 10 ^ num_exp n) 1
        else Float.round_ratio (num_coef n) (10 ^ (- num_exp n)) in
      match r with
      | Some f => Some (if num_neg n then Float.neg f else f)
      | None => None
      end
  | None => None
  end.

Fixpoint zeros (n : nat) : string :=
  match n with
  | O => EmptyString
  | S n' => String "0" (zeros n')
  end.

(** [str(d)] for a Decimal ([Decimal.__str__], scientific notation when the
    exponent is positive or the value is below 1E-6). *)
Definition str_of_Decimal (d : Dec.Decimal) : string :=
  let digits := str_of_Z (Z.abs (Dec.coef d)) in
  let len := Z.of_nat (String.length digits) in
  let leftdigits := Dec.dexp d + len in
  let dotplace :=
    if (Dec.dexp d <=? 0) && (-6 <? leftdigits) then leftdigits else 1 in
  let intpart :=
    if dotplace <=? 0 then "0"
    else if len <=? dotplace then digits ++ zeros (Z.to_nat (dotplace - len))
    else substring 0 (Z.to_nat dotplace) digits in
  let fracpart :=
    if dotplace <=? 0 then "." ++ zeros (Z.to_nat (- dotplace)) ++ digits
    else if len <=? dotplace then EmptyString
    else "." ++ substring (Z.to_nat dotplace) (Z.to_nat (len - dotplace)) digits in
  let e :=
    if leftdigits =? dotplace then EmptyString
    else
      let x := leftdigits - dotplace in
      "E" ++ (if 0 <=? x then "+" else EmptyString) ++ str_of_Z x in
  (if Dec.coef d <? 0 then "-" else EmptyString) ++ intpart ++ fracpart ++ e.

(** ** JSON *)

(** The values [json.loads] returns.  An object keeps its members in the
    order of the text; a Python dict built from it keeps, for a repeated
    key, the last value. *)
Inductive json : Type :=
| JNull
| JBool (b : bool)
| JInt (n : Z)
| JFloat (f : Float.float)
| JStr (s : string)
| JArr (l : list json)
| JObj (kv : list (string * json)).

Definition dquote : ascii := "034"%char.
Definition backslash : ascii := "092"%char.

Definition is_ws (c : ascii) : bool :=
  ((c =? " ") || (c =? "009") || (c =? "010") || (c =? "013"))%char.

Fixpoint skip_ws (s : string) : string :=
  match s with
  | String c r => if is_ws c then skip_ws r else s
  | EmptyString => s
  end.

Fixpoint strip_prefix (p s : string) : option string :=
  match p, s with
  | EmptyString, _ => Some s
  | String a p', String b s' => if (a =? b)%char then strip_prefix p' s' else None
  | String _ _, EmptyString => None
  end.

Definition unescape (c : ascii) : option ascii :=
  if (c =? dquote)%char then Some dquote
  else if (c =? backslash)%char then Some backslash
  else if (c =? "/")%char then Some "/"%char
  else if (c =? "b")%char then Some "008"%char
  else if (c =? "f")%char then Some "012"%char
  else if (c =? "n")%char then Some "010"%char
  else if (c =? "r")%char then Some "013"%char
  else if (c =? "t")%char then Some "009"%char
  else None.

(** The text of a string literal after its opening quote, up to the closing
    one.  (Escapes by code point are not read.) *)
Fixpoint parse_string_body (s : string) : option (string * string) :=
  match s with
  | EmptyString => None
  | String c r =>
      if (c =? dquote)%char then Some (EmptyString, r)
      else if (c =? backslash)%char then
        match r with
        | String e r' =>
            match unescape e, parse_string_body r' with
            | Some x, Some (str, rest) => Some (String x str, rest)
            | _, _ => None
            end
        | EmptyString => None
        end
      else if Z.of_nat (nat_of_ascii c) <? 32 then None
      else
        match parse_string_body r with
        | Some (str, rest) => Some (String c str, rest)
        | None => None
        end
  end.

(** A number: an int when it has neither fraction nor exponent, a float
    otherwise. *)
Definition parse_number (s : string) : option (json * string) :=
  let '(sg, s1) :=
    match s with
    | String "-" r => (true, r)
    | _ => (false, s)
    end in
  match s1 with
  | String c r =>
      if is_digit c then
        let '(ip, _, s2) :=
          if (c =? "0")%char then (0, 1, r) else read_digits s1 0 0 in
        let '(co, nf, s3) :=
          match s2 with
          | String "." (String d _ as r2) =>
              if is_digit d then read_digits r2 ip 0 else (ip, 0, s2)
          | _ => (ip, 0, s2)
          end in
        let '(ex, has_e, s4) :=
          match s3 with
          | String e r3 =>
              if ((e =? "e") || (e =? "E"))%char then
                let '(esg, r4) := read_sign r3 in
                match r4 with
                | String d _ =>
                    if is_digit d then
                      let '(ev, _, r5) := read_digits r4 0 0 in
                      (if esg then - ev else ev, true, r5)
                    else (0, false, s3)
                | EmptyString => (0, false, s3)
                end
              else (0, false, s3)
          | EmptyString => (0, false, s3)
          end in
        if (nf =? 0) && negb has_e then Some (JInt (if sg then - ip else ip), s4)
        else
          let e10 := ex - nf in
          let r :=
            if 0 <=? e10 then Float.round_ratio (co * 10 ^ e10) 1
            else Float.round_ratio co (10 ^ (- e10)) in
          match r with
          | Some f => Some (JFloat (if sg then Float.neg f else f), s4)
          | None => None
          end
      else None
  | EmptyString => None
  end.

(** One value, then (for [parse_elems], [parse_members]) the rest of an array
    after [[] or of an object after [{], white space skipped. *)
Fixpoint parse_value (fuel : nat) (s : string) : option (json * string) :=
  match fuel with
  | O => None
  | S f =>
      match skip_ws s with
      | String c r =>
          if (c =? "{")%char then
            match skip_ws r with
            | String "}" r' => Some (JObj [], r')
            | r' =>
                match parse_members f r' with
                | Some (kv, rest) => Some (JObj kv, rest)
                | None => None
                end
            end
          else if (c =? "[")%char then
            match skip_ws r with
            | String "]" r' => Some (JArr [], r')
            | r' =>
                match parse_elems f r' with
                | Some (l, rest) => Some (JArr l, rest)
                | None => None
                end
            end
          else if (c =? dquote)%char then
            match parse_string_body r with
            | Some (str, rest) => Some (JStr str, rest)
            | None => None
            end
          else if (c =? "n")%char then
            option_map (fun rest => (JNull, rest)) (strip_prefix "ull" r)
          else if (c =? "t")%char then
            option_map (fun rest => (JBool true, rest)) (strip_prefix "rue" r)
          else if (c =? "f")%char then
            option_map (fun rest => (JBool false, rest)) (strip_prefix "alse" r)
          else parse_number (String c r)
      | EmptyString => None
      end
  end
with parse_elems (fuel : nat) (s : string) : option (list json * string) :=
  match fuel with
  | O => None
  | S f =>
      match parse_value f s with
      | Some (v, rest) =>
          match skip_ws rest with
          | String "," rest' =>
              match parse_elems f rest' with
              | Some (l, rest'') => Some (v :: l, rest'')
              | None => None
              end
          | String "]" rest' => Some ([v], rest')
          | _ => None
          end
      | None => None
      end
  end
with parse_members (fuel : nat) (s : string) : option (list (string * json) * string) :=
  match fuel with
  | O => None
  | S f =>
      match skip_ws s with
      | String q r =>
          if (q =? dquote)%char then
            match parse_string_body r with
            | Some (k, r1) =>
                match skip_ws r1 with
                | String ":" r2 =>
                    match parse_value f r2 with
                    | Some (v, r3) =>
                        match skip_ws r3 with
                        | String "," r4 =>
                            match parse_members f r4 with
                            | Some (kv, r5) => Some ((k, v) :: kv, r5)
                            | None => None
                            end
                        | String "}" r4 => Some ([(k, v)], r4)
                        | _ => None
                        end
                    | None => None
                    end
                | _ => None
                end
            | None => None
            end
          else None
      | EmptyString => None
      end
  end.

(** [json.loads(s)]: one value and nothing after it but white space. *)
Definition json_loads (s : string) : result json :=
  match parse_value (2 * String.length s + 2) s with
  | Some (v, rest) =>
      match skip_ws rest with
      | EmptyString => Ok v
      | _ => Unmodelled
      end
  | None => Unmodelled
  end.

(** *** Python's operators on the values of [json.loads] *)

(** [d[k]] for a dict built from the members [kv]: the last value of [k]. *)
Fixpoint dict_get (k : string) (kv : list (string * json)) : option json :=
  match kv with
  | [] => None
  | (k', v) :: rest =>
      match dict_get k rest with
      | Some v' => Some v'
      | None => if String.eqb k' k then Some v else None
      end
  end.

Definition dict_has (k : string) (kv : list (string * json)) : bool :=
  existsb (fun p => String.eqb (fst p) k) kv.

Fixpoint is_substring (k s : string) : bool :=
  if prefix k s then true
  else
    match s with
    | String _ s' => is_substring k s'
    | EmptyString => false
    end.

(** [k in v] for a str [k]: a key of a dict, an element of a list, a
    substring of a str; a TypeError for what is not a container. *)
Definition py_contains (k : string) (v : json) : result bool :=
  match v with
  | JObj kv => Ok (dict_has k kv)
  | JArr l =>
      Ok (existsb (fun x => match x with JStr s => String.eqb s k | _ => false end) l)
  | JStr s => Ok (is_substring k s)
  | _ => Raise TypeError
  end.

(** [v[k]] for a str [k]. *)
Definition py_getitem (v : json) (k : string) : result json :=
  match v with
  | JObj kv =>
      match dict_get k kv with
      | Some x => Ok x
      | None => Raise KeyError
      end
  | _ => Raise TypeError
  end.

(** [v[0]]. *)
Definition py_first (v : json) : result json :=
  match v with
  | JArr [] => Raise IndexError
  | JArr (x :: _) => Ok x
  | JStr EmptyString => Raise IndexError
  | JStr (String c _) => Ok (JStr (String c EmptyString))
  | JObj _ => Raise KeyError
  | _ => Raise TypeError
  end.

(** [Decimal(v)].  A str is read as a numeral, an int and a float are
    converted exactly, a bool is an int. *)
Definition Decimal_of_json (v : json) : result Dec.Decimal :=
  match v with
  | JStr s => of_option (Decimal_of_string s)
  | JInt n => Ok (Dec.of_Z n)
  | JBool b => Ok (Dec.of_Z (if b then 1 else 0))
  | JFloat f => Ok (Decimal_of_float f)
  | JNull => Raise TypeError
  | JObj _ => Raise TypeError
  | JArr _ => Unmodelled
  end.

(** ** app_config.py *)

(** [SideStatuses]. *)
Inductive SideStatuses : Type := BUY | SELL.

Definition SideStatuses_value (s : SideStatuses) : string :=
  match s with
  | BUY => "BUY"
  | SELL => "SELL"
  end.

(** What [config.price_currency] is bound to: the int of [Config.__init__],
    then the dict the feed stores. *)
Inductive PyCell : Type :=
| CellInt (n : Z)
| CellDict (asset : json) (price : Dec.Decimal).

Record Config : Type := mkConfig {
  API_KEY : string;
  secret_key : string;
  base_url : string;
  url_ws : string;
  sales_ratio : Float.float;
  RECV_WINDOW : Z;
  price_currency : PyCell;
  duration : Z;
  quantity_currency : string;
  order_type : string;
  waiting_next_purchase : Z
}.

(** [int(s)] for the texts [sign digits]. *)
Definition int_of_string (s : string) : option Z :=
  let '(sg, s1) := read_sign s in
  let '(v, n, s2) := read_digits s1 0 0 in
  match s2 with
  | EmptyString => if n =? 0 then None else Some (if sg then - v else v)
  | _ => None
  end.

(** [float(os.getenv(k))], [int(os.getenv(k))]: a TypeError when the
    variable is not set. *)
Definition getenv_float (getenv : string -> option string) (k : string)
  : result Float.float :=
  match getenv k with
  | Some s => of_option (float_of_string s)
  | None => Raise TypeError
  end.

Definition getenv_int (getenv : string -> option string) (k : string) : result Z :=
  match getenv k with
  | Some s => of_option (int_of_string s)
  | None => Raise TypeError
  end.

(** [Config.__init__], the environment being [getenv].  (A text variable that
    is not set is [None] in Python; here the text variables are taken as
    set.) *)
Definition Config_init (getenv : string -> option string) : result Config :=
  api_key <- of_option (getenv "API_KEY") ;;
  secret <- of_option (getenv "secret_key") ;;
  base <- of_option (getenv "base_url") ;;
  ws <- of_option (getenv "url_ws") ;;
  ratio <- getenv_float getenv "sales_ratio" ;;
  recv_window <- getenv_int getenv "RECV_WINDOW" ;;
  let cell := CellInt 0 in
  dur <- getenv_int getenv "duration" ;;
  quantity <- of_option (getenv "quantity_currency") ;;
  otype <- of_option (getenv "order_type") ;;
  waiting <- getenv_int getenv "waiting_next_purchase" ;;
  Ok (mkConfig api_key secret base ws ratio recv_window cell dur quantity otype waiting).

(** [CustomDictType]: an entry of [Handler.data_currency]. *)
Record Currency : Type := mkCurrency {
  cur_name : string;
  cur_symbol : string;
  cur_asset : string
}.

Definition data_currency : list (string * Currency) :=
  [ ("1", mkCurrency "btcusdt@ticker" "BTCUSDT" "BTC");
    ("2", mkCurrency "ethusdt@ticker" "ETHUSDT" "ETH");
    ("3", mkCurrency "solusdt@ticker" "SOLUSDT" "SOL") ].

(** ** main.py: ApiBinance *)

(** [hmac.new(key, msg, hashlib.sha256).hexdigest()], the hash function
    being the library's. *)
Class Hmac : Type := hmac_sha256_hexdigest : string -> string -> string.

Inductive Method : Type := GET | POST.

(** A request as [httpx] is given it: the [params] of a GET or the [data] of
    a POST, in the order of the dict; an int value is sent as its [str]. *)
Record Request : Type := mkRequest {
  req_method : Method;
  req_url : string;
  req_headers : list (string * string);
  req_params : list (string * string)
}.

Record Response : Type := mkResponse {
  status_code : Z;
  text : string
}.

(** What one [create_order] (or [get_balance]) call meets: the clock read
    by [int(time.time() * 1000)] and the answer of the exchange, for the
    order and for the balance lookup that follows it. *)
Record OrderIO : Type := mkOrderIO {
  order_time_ms : Z;
  order_response : Response;
  balance_time_ms : Z;
  balance_response : Response
}.

Section ApiBinance.

Context {hm : Hmac}.
Variable config : Config.

Definition headers : list (string * string) :=
  [("X-MBX-APIKEY", API_KEY config)].

Definition get_signature (params_string : string) : string :=
  hmac_sha256_hexdigest (secret_key config) params_string.

(** [[i for i in balances if i["asset"] == asset]]. *)
Fixpoint filter_balances (asset : string) (l : list json) : result (list json) :=
  match l with
  | [] => Ok []
  | i :: rest =>
      a <- py_getitem i "asset" ;;
      tl <- filter_balances asset rest ;;
      Ok (match a with
          | JStr x => if String.eqb x asset then i :: tl else tl
          | _ => tl
          end)
  end.

(** Iterating [balances]: a list gives its elements; a non-empty dict or str
    gives strs, which have no ["asset"]; the rest is not iterable. *)
Definition iter_balances (asset : string) (balances : json) : result (list json) :=
  match balances with
  | JArr l => filter_balances asset l
  | JObj [] => Ok []
  | JStr EmptyString => Ok []
  | _ => Raise TypeError
  end.

Definition get_balance (currency : Currency) (timestamp : Z) (response : Response)
  : Request * result (option (list json)) :=
  let params_string :=
    "timestamp=" ++ str_of_Z timestamp ++ "&recvWindow=" ++ str_of_Z (RECV_WINDOW config) in
  let request :=
    mkRequest GET (base_url config ++ "/api/v3/account") headers
      [ ("timestamp", str_of_Z timestamp);
        ("recvWindow", str_of_Z (RECV_WINDOW config));
        ("signature", get_signature params_string) ] in
  (request,
   if status_code response =? 200 then
     j <- json_loads (text response) ;;
     balances <- py_getitem j "balances" ;;
     balance <- iter_balances (cur_asset currency) balances ;;
     Ok (Some balance)
   else Ok None).

(** The string [create_order] signs. *)
Definition order_params_string (currency : Currency) (side : string)
    (price : option Dec.Decimal) (timestamp : Z) : string :=
  let params_string :=
    "symbol=" ++ cur_symbol currency ++ "&side=" ++ side
      ++ "&type=" ++ order_type config
      ++ "&quantity=" ++ quantity_currency config
      ++ "&timestamp=" ++ str_of_Z timestamp
      ++ "&recvWindow=" ++ str_of_Z (RECV_WINDOW config) in
  match price with
  | Some p =>
      if Dec.truthy p then params_string ++ "&price=" ++ str_of_Decimal p
      else params_string
  | None => params_string
  end.

(** The POST [create_order] sends. *)
Definition order_request (currency : Currency) (side : string)
    (price : option Dec.Decimal) (timestamp : Z) : Request :=
  let signature := get_signature (order_params_string currency side price timestamp) in
  mkRequest POST (base_url config ++ "/api/v3/order") headers
    [ ("symbol", cur_symbol currency);
      ("side", side);
      ("type", order_type config);
      ("quantity", quantity_currency config);
      ("timestamp", str_of_Z timestamp);
      ("recvWindow", str_of_Z (RECV_WINDOW config));
      ("signature", signature) ].

(** [order_data['fills'][0]['price']]. *)
Definition first_fill_price (order_data : json) : result json :=
  fills <- py_getitem order_data "fills" ;;
  fill <- py_first fills ;;
  py_getitem fill "price".

(** [create_order]: the requests it sends, in order, and what it returns.
    On a 200 the log line is built first: it reads six fields of the answer
    and awaits the balance lookup; then the price of the first fill is
    returned. *)
Definition create_order (currency : Currency) (side : string)
    (price : option Dec.Decimal) (io : OrderIO)
  : list Request * result Dec.Decimal :=
  let request := order_request currency side price (order_time_ms io) in
  let response := order_response io in
  if status_code response =? 200 then
    let fields :=
      order_data <- json_loads (text response) ;;
      _ <- py_getitem order_data "symbol" ;;
      _ <- py_getitem order_data "orderId" ;;
      _ <- py_getitem order_data "origQty" ;;
      _ <- py_getitem order_data "side" ;;
      _ <- first_fill_price order_data ;;
      _ <- py_getitem order_data "status" ;;
      Ok order_data in
    match fields with
    | Ok order_data =>
        let '(balance_request, balance) :=
          get_balance currency (balance_time_ms io) (balance_response io) in
        ([request; balance_request],
         _ <- balance ;;
         p <- first_fill_price order_data ;;
         Decimal_of_json p)
    | Raise e => ([request], Raise e)
    | Unmodelled => ([request], Unmodelled)
    end
  else ([request], Ok (Dec.of_Z 0)).

End ApiBinance.

(** The query string of the parameters a request carries, its signature left
    out: what the exchange computes the signature over. *)
Fixpoint query_string (params : list (string * string)) : string :=
  match params with
  | [] => EmptyString
  | (k, v) :: rest =>
      if String.eqb k "signature" then query_string rest
      else
        let q := query_string rest in
        match q with
        | EmptyString => k ++ "=" ++ v
        | _ => k ++ "=" ++ v ++ "&" ++ q
        end
  end.

(** The value a request carries for the parameter [k]. *)
Fixpoint param (k : string) (params : list (string * string)) : option string :=
  match params with
  | [] => None
  | (k', v) :: rest => if String.eqb k' k then Some v else param k rest
  end.

(** A request is an order of the side [side]: a POST whose [side] parameter
    is the value of [side]. *)
Definition is_order (side : SideStatuses) (r : Request) : bool :=
  match req_method r, param "side" (req_params r) with
  | POST, Some v => String.eqb v (SideStatuses_value side)
  | _, _ => false
  end.

(** ** main.py: Handler.task_checking_prices *)

(** What the polling loop sees when it evaluates its condition for the
    [k]-th time: the shared cell as the feed left it, and
    [datetime.datetime.now()] (in microseconds).  No [await] lies between the
    reads of one evaluation, so one pair describes it. *)
Record Tick : Type := mkTick {
  tick_cell : PyCell;
  tick_now : Z
}.

(** What a cycle meets: the clock at its start, the exchange at the buy and
    at the sell, and the ticks of the polling loop. *)
Record CycleIO : Type := mkCycleIO {
  start_now : Z;
  buy_io : OrderIO;
  ticks : nat -> Tick;
  sell_io : OrderIO
}.

(** What a cycle does to the outside: the requests it sends and the sleeps
    between two polls (in milliseconds). *)
Inductive Event : Type :=
| EvRequest (r : Request)
| EvSleep (ms : Z).

Definition timedelta_seconds (s : Z) : Z := s * 1000000.

Section Handler.

Context {hm : Hmac}.
Variable config : Config.
Variable currency : Currency.

(** [down_price] and [up_price] of a purchase price, with the arithmetic of
    [Dec]: between the exponent limits of the context ([bounds_in_context],
    below, has the limits). *)
Definition down_price (purchase_price : Dec.Decimal) : Dec.Decimal :=
  Dec.sub purchase_price
    (Dec.mul purchase_price (Decimal_of_float (sales_ratio config))).

Definition up_price (purchase_price : Dec.Decimal) : Dec.Decimal :=
  Dec.add purchase_price
    (Dec.mul purchase_price (Decimal_of_float (sales_ratio config))).

(** The condition of the [if] in the loop, for a cell that holds a dict. *)
Definition sell_condition (down up : Dec.Decimal) (end_timestamp : Z)
    (price : Dec.Decimal) (now : Z) : bool :=
  (Dec.leb price down || Dec.geb price up) || (end_timestamp <=? now).

(** The [while True] loop from its [k]-th evaluation on, for at most [fuel]
    evaluations: [None] when it is still polling after them. *)
Fixpoint polling (io : CycleIO) (down up : Dec.Decimal) (end_timestamp : Z)
    (fuel k : nat) : list Event * option (result unit) :=
  match fuel with
  | O => ([], None)
  | S fuel' =>
      match tick_cell (ticks io k) with
      | CellInt _ => ([], Some (Raise TypeError))
      | CellDict _ price =>
          if sell_condition down up end_timestamp price (tick_now (ticks io k))
          then
            let '(requests, r) :=
              create_order config currency (SideStatuses_value SELL) None (sell_io io) in
            (map EvRequest requests, Some (_ <- r ;; Ok tt))
          else
            let '(events, r) := polling io down up end_timestamp fuel' (S k) in
            (EvSleep 200 :: events, r)
      end
  end.

(** The cycle.  The deadline is a sum in [Z] and the bounds are
    [down_price] and [up_price]: this is the cycle of the source for a
    deadline that is a datetime ([deadline_defined], below) and for bounds
    within the exponent limits of the context. *)
Definition task_checking_prices (io : CycleIO) (fuel : nat)
  : list Event * option (result unit) :=
  let start_timestamp := start_now io in
  let end_timestamp := start_timestamp + timedelta_seconds (duration config) in
  let '(requests, r) :=
    create_order config currency (SideStatuses_value BUY) None (buy_io io) in
  match r with
  | Ok purchase_price =>
      if Dec.truthy purchase_price then
        let '(events, r') :=
          polling io (down_price purchase_price) (up_price purchase_price)
            end_timestamp fuel 0 in
        ((map EvRequest requests ++ events)%list, r')
      else (map EvRequest requests, Some (Ok tt))
  | Raise e => (map EvRequest requests, Some (Raise e))
  | Unmodelled => (map EvRequest requests, Some Unmodelled)
  end.

End Handler.

(** How many orders of a side a trace holds, and how many polls went by
    before the first of them. *)
Definition is_order_event (side : SideStatuses) (e : Event) : bool :=
  match e with
  | EvRequest r => is_order side r
  | EvSleep _ => false
  end.

Definition count_orders (side : SideStatuses) (events : list Event) : nat :=
  List.length (filter (is_order_event side) events).

Definition is_sleep (e : Event) : bool :=
  match e with
  | EvSleep _ => true
  | EvRequest _ => false
  end.

Fixpoint sleeps_before_order (side : SideStatuses) (events : list Event) : nat :=
  match events with
  | [] => O
  | e :: rest =>
      if is_order_event side e then O
      else ((if is_sleep e then 1 else 0) + sleeps_before_order side rest)%nat
  end.

(** ** main.py: DataLoader.load_data *)

(** What [await websocket.recv()] gives: a message, or the ConnectionClosed
    exception. *)
Inductive Recv : Type :=
| Message (m : string)
| ConnectionClosed.

Inductive FeedEvent : Type :=
| FeedConnect (url : string)
| FeedSend (message : json)
| FeedSleep (seconds : Z).

(** The body of the [try]: one received message and the cell. *)
Definition on_message (cell : PyCell) (message : string) : result PyCell :=
  message_data <- json_loads message ;;
  has_c <- py_contains "c" message_data ;;
  if (has_c : bool) then
    s <- py_getitem message_data "s" ;;
    c <- py_getitem message_data "c" ;;
    price <- Decimal_of_json c ;;
    Ok (CellDict s price)
  else Ok cell.

(** The inner [while True] on one connection, fed the outcomes of its
    successive [recv] calls.  Its [except] clause sleeps and falls back to
    the head of this same loop; the loop has no [break], so it is left by an
    exception only.  [None]: the loop is awaiting its next [recv]. *)
Fixpoint streaming (cell : PyCell) (inbox : list Recv)
  : list FeedEvent * PyCell * option (result unit) :=
  match inbox with
  | [] => ([], cell, None)
  | Message m :: rest =>
      match on_message cell m with
      | Ok cell' => streaming cell' rest
      | Raise e => ([], cell, Some (Raise e))
      | Unmodelled => ([], cell, Some Unmodelled)
      end
  | ConnectionClosed :: rest =>
      let '(events, cell', r) := streaming cell rest in
      (FeedSleep 2 :: events, cell', r)
  end.

Definition subscribe_message (subscribe_currency : string) : json :=
  JObj [("method", JStr "SUBSCRIBE"); ("params", JArr [JStr subscribe_currency])].

(** [load_data]: the outer [while True] opens a connection, subscribes and
    enters the inner loop; as the inner loop is never left normally, the
    outer loop never comes round again. *)
Definition load_data (config : Config) (subscribe_currency : string)
    (inbox : list Recv) : list FeedEvent * PyCell * option (result unit) :=
  let '(events, cell, r) := streaming (price_currency config) inbox in
  (FeedConnect (url_ws config) :: FeedSend (subscribe_message subscribe_currency) :: events,
   cell, r).

Definition is_connect (e : FeedEvent) : bool :=
  match e with
  | FeedConnect _ => true
  | _ => false
  end.

Definition is_send (e : FeedEvent) : bool :=
  match e with
  | FeedSend _ => true
  | _ => false
  end.

Definition is_feed_sleep (e : FeedEvent) : bool :=
  match e with
  | FeedSleep _ => true
  | _ => false
  end.

Definition count_feed (p : FeedEvent -> bool) (events : list FeedEvent) : nat :=
  List.length (filter p events).

(** An answer to an order that has the fields the log line reads. *)
Definition has_field (j : json) (k : string) : Prop :=
  exists v, py_getitem j k = Ok v.

Definition order_confirmation (j : json) : Prop :=
  has_field j "symbol" /\ has_field j "orderId" /\ has_field j "origQty"
  /\ has_field j "side" /\ has_field j "status".

(** An answer to the balance lookup as the exchange gives it: when its status
    is 200, its text is an object whose [balances] is a list of entries with
    an [asset]. *)
Definition account_answer (response : Response) : Prop :=
  status_code response = 200 ->
  exists j l,
    json_loads (text response) = Ok j
    /\ py_getitem j "balances" = Ok (JArr l)
    /\ Forall (fun i => has_field i "asset") l.


(** At the [j]-th poll the cell holds a price and the condition has the
    value [b]. *)
Definition poll_is (io : CycleIO) (down up : Dec.Decimal) (end_timestamp : Z)
    (j : nat) (b : bool) : Prop :=
  exists asset price,
    tick_cell (ticks io j) = CellDict asset price
    /\ sell_condition down up end_timestamp price (tick_now (ticks io j)) = b.

(** ** Sample values *)

(** A text between quotes, and the message of the round trip. *)
Definition quoted (s : string) : string :=
  String dquote (s ++ String dquote EmptyString).

Definition ticker_message : string :=
  "{" ++ quoted "s" ++ ":" ++ quoted "BTCUSDT" ++ ","
      ++ quoted "c" ++ ":" ++ quoted "42000.50" ++ "}".

(** An acknowledgement of a subscription: [{"result": null, "id": 1}]. *)
Definition ack_message : string :=
  "{" ++ quoted "result" ++ ": null, " ++ quoted "id" ++ ": 1}".

Definition a_cell : PyCell := CellDict (JStr "BTCUSDT") (Dec.mk 4200050 (-2)).

(** A stand-in for the hash in the sample runs. *)
Definition sample_hmac : Hmac := fun key msg => key ++ ":" ++ msg.

Definition sample_env (k : string) : option string :=
  if String.eqb k "API_KEY" then Some "key"
  else if String.eqb k "secret_key" then Some "secret"
  else if String.eqb k "base_url" then Some "https://api.binance.com"
  else if String.eqb k "url_ws" then Some "wss://stream.binance.com:9443/ws"
  else if String.eqb k "sales_ratio" then Some "0.01"
  else if String.eqb k "RECV_WINDOW" then Some "5000"
  else if String.eqb k "duration" then Some "10"
  else if String.eqb k "quantity_currency" then Some "0.001"
  else if String.eqb k "order_type" then Some "MARKET"
  else if String.eqb k "waiting_next_purchase" then Some "30"
  else None.

(** The configuration [sample_env] gives: the ratio is the binary64 value
    nearest to 0.01. *)
Definition sample_config : Config :=
  mkConfig "key" "secret" "https://api.binance.com"
    "wss://stream.binance.com:9443/ws"
    (Float.mk 5764607523034235 (-59)) 5000 (CellInt 0) 10 "0.001" "MARKET" 30.

Definition btc : Currency := mkCurrency "btcusdt@ticker" "BTCUSDT" "BTC".

(** An order filled at the price [p], and an account with two balances. *)
Definition filled_order (side p : string) : string :=
  "{" ++ quoted "symbol" ++ ":" ++ quoted "BTCUSDT" ++ ","
      ++ quoted "orderId" ++ ":28,"
      ++ quoted "origQty" ++ ":" ++ quoted "0.001" ++ ","
      ++ quoted "side" ++ ":" ++ quoted side ++ ","
      ++ quoted "status" ++ ":" ++ quoted "FILLED" ++ ","
      ++ quoted "fills" ++ ":[{" ++ quoted "price" ++ ":" ++ quoted p ++ ","
      ++ quoted "qty" ++ ":" ++ quoted "0.001" ++ "}]}".

Definition account : string :=
  "{" ++ quoted "balances" ++ ":[{" ++ quoted "asset" ++ ":" ++ quoted "BTC" ++ ","
      ++ quoted "free" ++ ":" ++ quoted "0.001" ++ "},{"
      ++ quoted "asset" ++ ":" ++ quoted "USDT" ++ ","
      ++ quoted "free" ++ ":" ++ quoted "10" ++ "}]}".

Definition filled_io (side p : string) : OrderIO :=
  mkOrderIO 1700000000000 (mkResponse 200 (filled_order side p))
    1700000000100 (mkResponse 200 account).

Definition rejected_io : OrderIO :=
  mkOrderIO 1700000000000 (mkResponse 400 "insufficient balance")
    1700000000100 (mkResponse 200 account).

(** A cycle bought at 100.00.  The feed shows 100.50 for two polls and
    101.50 at the third; a poll every 0.2 s from the start at 0. *)
Definition rising_ticks (k : nat) : Tick :=
  mkTick (CellDict (JStr "BTCUSDT")
            (if (k <? 2)%nat then Dec.mk 10050 (-2) else Dec.mk 10150 (-2)))
         (200000 * Z.of_nat k).

Definition rising_cycle : CycleIO :=
  mkCycleIO 0 (filled_io "BUY" "100.00") rising_ticks (filled_io "SELL" "101.50").

(** A cycle bought at 100.00 before the feed has stored anything: the cell is
    the int of [Config.__init__], and the first poll comes after the
    deadline. *)
Definition stalled_ticks (k : nat) : Tick :=
  mkTick (CellInt 0) (10000000 + 200000 * Z.of_nat k).

Definition stalled_cycle : CycleIO :=
  mkCycleIO 0 (filled_io "BUY" "100.00") stalled_ticks (filled_io "SELL" "100.00").

(** A cycle whose buy is rejected. *)
Definition rejected_cycle : CycleIO :=
  mkCycleIO 0 rejected_io rising_ticks (filled_io "SELL" "101.50").

(** The ratio 0.5, a binary64 value with one decimal digit, and the ratio
    [2 ^ -100] (about 7.9E-31). *)
Definition half_config : Config :=
  mkConfig "key" "secret" "https://api.binance.com"
    "wss://stream.binance.com:9443/ws"
    (Float.mk 4503599627370496 (-53)) 5000 (CellInt 0) 10 "0.001" "MARKET" 30.

Definition tiny_config : Config :=
  mkConfig "key" "secret" "https://api.binance.com"
    "wss://stream.binance.com:9443/ws"
    (Float.mk 1 (-100)) 5000 (CellInt 0) 10 "0.001" "MARKET" 30.

(** ** main.py: Handler.main and Handler.start *)

Section Scheduler.

Context {hm : Hmac}.
Variable config : Config.
Variable currency : Currency.

(** The [while True] of [main] from its [k]-th cycle on, for at most [n]
    cycles, each with at most [fuel] polls: the task of a cycle is awaited,
    so what it raises is raised by [main]; after a cycle that returned,
    [main] sleeps [waiting_next_purchase] seconds.  [None]: still running. *)
Fixpoint cycles (ios : nat -> CycleIO) (fuel n k : nat)
  : list Event * option (result unit) :=
  match n with
  | O => ([], None)
  | S n' =>
      let '(events, r) := task_checking_prices config currency (ios k) fuel in
      match r with
      | Some (Ok _) =>
          let '(events', r') := cycles ios fuel n' (S k) in
          ((events ++ EvSleep (1000 * waiting_next_purchase config) :: events')%list, r')
      | Some (Raise e) => (events, Some (Raise e))
      | Some Unmodelled => (events, Some Unmodelled)
      | None => (events, None)
      end
  end.

(** [main]: five seconds of sleep, then the cycles. *)
Definition main (ios : nat -> CycleIO) (fuel n : nat)
  : list Event * option (result unit) :=
  let '(events, r) := cycles ios fuel n 0 in
  (EvSleep 5000 :: events, r).

End Scheduler.

(** [self.data_currency.get(index, "btcusdt@ticker")]: the entry of the
    catalogue under [index], or the default, which is a str. *)
Inductive Selected : Type :=
| Entry (c : Currency)
| Default (s : string).

Fixpoint catalogue_get (index : string) (catalogue : list (string * Currency))
  : option Currency :=
  match catalogue with
  | [] => None
  | (k, c) :: rest => if String.eqb k index then Some c else catalogue_get index rest
  end.

Definition select_currency (index : string) : Selected :=
  match catalogue_get index data_currency with
  | Some c => Entry c
  | None => Default "btcusdt@ticker"
  end.

(** The first step of [start] after the prompt: [currency["name"]], the
    argument of [DataLoader].  A str has no str subscript. *)
Definition start_subscription (index : string) : result (Currency * string) :=
  match select_currency index with
  | Entry c => Ok (c, cur_name c)
  | Default _ => Raise TypeError
  end.

(** ** More vocabulary for the properties *)

(** The entry [i] of [balances] has the asset code [asset]. *)
Definition asset_is (asset : string) (i : json) : bool :=
  match py_getitem i "asset" with
  | Ok (JStr x) => String.eqb x asset
  | _ => false
  end.

Definition is_closed (r : Recv) : bool :=
  match r with
  | ConnectionClosed => true
  | Message _ => false
  end.

(** A JSON value that is neither a dict, a list nor a str. *)
Definition is_scalar (v : json) : bool :=
  match v with
  | JNull | JBool _ | JInt _ | JFloat _ => true
  | _ => false
  end.

(** The polls of two cycles show the same prices at the same times, the
    asset codes apart. *)
Definition same_prices (t t' : Tick) : Prop :=
  tick_now t = tick_now t'
  /\ match tick_cell t, tick_cell t' with
     | CellInt _, CellInt _ => True
     | CellDict _ p, CellDict _ p' => p = p'
     | _, _ => False
     end.

(** ** More sample values *)

(** An account answer with an entry that has no asset code. *)
Definition broken_account : string :=
  "{" ++ quoted "balances" ++ ":[{" ++ quoted "asset" ++ ":" ++ quoted "BTC" ++ "},{"
      ++ quoted "free" ++ ":" ++ quoted "10" ++ "}]}".

(** An order confirmation without fills. *)
Definition unfilled_order : string :=
  "{" ++ quoted "symbol" ++ ":" ++ quoted "BTCUSDT" ++ ","
      ++ quoted "orderId" ++ ":28,"
      ++ quoted "origQty" ++ ":" ++ quoted "0.001" ++ ","
      ++ quoted "side" ++ ":" ++ quoted "BUY" ++ ","
      ++ quoted "status" ++ ":" ++ quoted "NEW" ++ ","
      ++ quoted "fills" ++ ":[]}".

(** A ticker message without its symbol. *)
Definition price_only_message : string :=
  "{" ++ quoted "c" ++ ":" ++ quoted "42000.50" ++ "}".

(** A cycle bought at 100.00 whose feed holds 100.00; a poll every 0.2 s. *)
Definition flat_ticks (k : nat) : Tick :=
  mkTick (CellDict (JStr "BTCUSDT") (Dec.mk 10000 (-2))) (200000 * Z.of_nat k).

Definition flat_cycle : CycleIO :=
  mkCycleIO 0 (filled_io "BUY" "100.00") flat_ticks (filled_io "SELL" "100.00").

(** The same cycle with a sell that the exchange rejects. *)
Definition unsold_cycle : CycleIO :=
  mkCycleIO 0 (filled_io "BUY" "100.00") rising_ticks rejected_io.

(** The cycle [rising_cycle] under another asset code in the cell. *)
Definition renamed_ticks (k : nat) : Tick :=
  mkTick (CellDict (JStr "ETHUSDT")
            (if (k <? 2)%nat then Dec.mk 10050 (-2) else Dec.mk 10150 (-2)))
         (200000 * Z.of_nat k).

Definition renamed_cycle : CycleIO :=
  mkCycleIO 0 (filled_io "BUY" "100.00") renamed_ticks (filled_io "SELL" "101.50").

(** ** decimal: the exponent limits of the default context *)

Module DefaultContext.

(** [getcontext()]: [Emax], [Emin], and the exponents [Etiny()] and [Etop()]
    of the smallest and the largest coefficient of [prec] digits.  [clamp] is
    0; of the signals that bear on a finite result, Overflow is trapped (it
    raises), Underflow, Subnormal, Inexact, Rounded and Clamped are not. *)
Definition Emax : Z := 999999.
Definition Emin : Z := -999999.
Definition Etiny : Z := Emin - Dec.prec + 1.
Definition Etop : Z := Emax - Dec.prec + 1.

(** [d.adjusted()]: the exponent of the first digit of the coefficient. *)
Definition adjusted (d : Dec.Decimal) : Z :=
  Dec.ndigits (Z.abs (Dec.coef d)) + Dec.dexp d - 1.

(** [Decimal._fix] in the default context.  A zero keeps its exponent,
    brought between [Etiny] and [Emax].  Otherwise the result has at most
    [prec] digits and an exponent of [Etiny] at least: a value above the
    largest one raises Overflow, a value below the smallest normal one is
    rounded at [Etiny] (to zero, when it is small enough). *)
Definition fix_ (d : Dec.Decimal) : result Dec.Decimal :=
  if Dec.coef d =? 0 then Ok (Dec.mk 0 (Z.min (Z.max (Dec.dexp d) Etiny) Emax))
  else
    let a := Z.abs (Dec.coef d) in
    let exp_min := Dec.ndigits a + Dec.dexp d - Dec.prec in
    if Etop <? exp_min then Raise Overflow
    else
      let exp_min := Z.max exp_min Etiny in
      if Dec.dexp d <? exp_min then
        let q := Dec.div_half_even a (exp_min - Dec.dexp d) in
        let coeff := if q =? 10 ^ Dec.prec then 10 ^ (Dec.prec - 1) else q in
        let exp_min := if q =? 10 ^ Dec.prec then exp_min + 1 else exp_min in
        if Etop <? exp_min then Raise Overflow
        else Ok (Dec.mk (Z.sgn (Dec.coef d) * coeff) exp_min)
      else Ok d.

(** [a * b], [a + b], [a - b]. *)
Definition mul (a b : Dec.Decimal) : result Dec.Decimal := fix_ (Dec.mul_exact a b).
Definition add (a b : Dec.Decimal) : result Dec.Decimal := fix_ (Dec.add_exact a b).
Definition sub (a b : Dec.Decimal) : result Dec.Decimal := fix_ (Dec.sub_exact a b).

(** The values on which [fix_] neither raises nor rounds at [Etiny]: a zero
    with an exponent between [Etiny] and [Emax], or a value whose first digit
    has an exponent between [Emin] and [Emax - 1]. *)
Definition in_range (d : Dec.Decimal) : bool :=
  if Dec.coef d =? 0 then (Etiny <=? Dec.dexp d) && (Dec.dexp d <=? Emax)
  else (Emin <=? adjusted d) && (adjusted d <? Emax).

End DefaultContext.

(** The two assignments of [task_checking_prices] after the buy, in the
    default context: [down_price], then [up_price], each with its own
    product. *)
Definition bounds_in_context (config : Config) (purchase_price : Dec.Decimal)
  : result (Dec.Decimal * Dec.Decimal) :=
  let ratio := Decimal_of_float (sales_ratio config) in
  down <- (x <- DefaultContext.mul purchase_price ratio ;;
           DefaultContext.sub purchase_price x) ;;
  up <- (x <- DefaultContext.mul purchase_price ratio ;;
         DefaultContext.add purchase_price x) ;;
  Ok (down, up).

(** ** datetime: the range of the deadline *)

(** [datetime.datetime.now() + datetime.timedelta(seconds=duration)] is a
    datetime, the clock being counted in microseconds from 0001-01-01: a
    timedelta has at most 999999999 days either way, and a datetime lies in
    the years 1 to 9999.  Outside, the sum raises OverflowError, which
    [task_checking_prices] above, with its deadline in [Z], does not show. *)
Definition deadline_defined (start duration : Z) : Prop :=
  -86399999913600 <= duration <= 86399999999999
  /\ 0 <= start + timedelta_seconds duration < 315537897600000000.

(** [asyncio.sleep(waiting_next_purchase)] is defined: the delay, an int, is
    converted to a float, and an int beyond the floats raises OverflowError,
    which [cycles] above does not show. *)
Definition rest_defined (waiting : Z) : Prop := waiting < 2 ^ 1023.

(** ** Sample values for the order call *)

(** A 200 without fills, and a filled order whose balance lookup is answered
    by an account with an entry that has no asset code. *)
Definition unfilled_io : OrderIO :=
  mkOrderIO 1700000000000 (mkResponse 200 unfilled_order)
    1700000000100 (mkResponse 200 account).

Definition unlogged_io : OrderIO :=
  mkOrderIO 1700000000000 (mkResponse 200 (filled_order "BUY" "100.00"))
    1700000000100 (mkResponse 200 broken_account).

(** * Properties *)

(** ** The price feed *)

Lemma streaming_closed (cell : PyCell) (N : nat) :
  streaming cell (repeat ConnectionClosed N)
  = (repeat (FeedSleep 2) N, cell, None).
Proof.
  induction N as [|N IH]; simpl.
  - reflexivity.
  - rewrite IH. reflexivity.
Qed.

Lemma streaming_no_connect (inbox : list Recv) :
  forall cell,
    count_feed is_connect (fst (fst (streaming cell inbox))) = 0%nat
    /\ count_feed is_send (fst (fst (streaming cell inbox))) = 0%nat.
Proof.
  induction inbox as [|r inbox IH]; intros cell; simpl.
  - split; reflexivity.
  - destruct r as [m|].
    + destruct (on_message cell m) as [cell'| |]; simpl; auto.
    + specialize (IH cell).
      destruct (streaming cell inbox) as [[events cell'] r]. simpl in *.
      exact IH.
Qed.

Lemma count_feed_repeat_sleep (p : FeedEvent -> bool) (N : nat) :
  p (FeedSleep 2) = false ->
  count_feed p (repeat (FeedSleep 2) N) = 0%nat.
Proof.
  intros Hp. induction N as [|N IH]; simpl.
  - reflexivity.
  - unfold count_feed in *. simpl. rewrite Hp. exact IH.
Qed.

(** C5.  What the code does when the connection signals connection-closed
    [N] times in a row: it sleeps 2 seconds after each closure and goes back
    to [recv] on the same connection.  Whatever [N], one connection is opened
    and one subscribe message is sent, the ones of the start: the feed loop
    never reconnects.  No exception escapes, and the cell is untouched. *)
Theorem C5_closed_feed_never_reconnects (config : Config) (name : string) (N : nat) :
  let '(events, cell, r) := load_data config name (repeat ConnectionClosed N) in
  events = (FeedConnect (url_ws config) :: FeedSend (subscribe_message name)
              :: repeat (FeedSleep 2) N)%list
  /\ count_feed is_connect events = 1%nat
  /\ count_feed is_send events = 1%nat
  /\ count_feed is_feed_sleep events = N
  /\ cell = price_currency config
  /\ r = None.
Proof.
  unfold load_data. rewrite streaming_closed.
  repeat split.
  - unfold count_feed. simpl. f_equal.
    apply (count_feed_repeat_sleep is_connect). reflexivity.
  - unfold count_feed. simpl. f_equal.
    apply (count_feed_repeat_sleep is_send). reflexivity.
  - unfold count_feed. simpl.
    induction N as [|N IH]; simpl; [reflexivity | now rewrite IH].
Qed.

(** Whatever the websocket delivers, [load_data] opens one connection. *)
Lemma load_data_one_connection (config : Config) (name : string) (inbox : list Recv) :
  count_feed is_connect (fst (fst (load_data config name inbox))) = 1%nat.
Proof.
  unfold load_data.
  pose proof (streaming_no_connect inbox (price_currency config)) as [H _].
  destruct (streaming (price_currency config) inbox) as [[events cell] r].
  simpl in *. unfold count_feed in *. simpl. now rewrite H.
Qed.

(** C7.  The message [{"s":"BTCUSDT","c":"42000.50"}] sets the cell to the
    asset BTCUSDT and the price 42000.50, the decimal [4200050E-2] that the
    text denotes, whatever the cell held before. *)
Theorem C7_ticker_message_sets_cell (cell : PyCell) :
  on_message cell ticker_message
  = Ok (CellDict (JStr "BTCUSDT") (Dec.mk 4200050 (-2)))
  /\ Decimal_of_string "42000.50" = Some (Dec.mk 4200050 (-2))
  /\ Dec.to_Q (Dec.mk 4200050 (-2)) == 4200050 # 100
  /\ str_of_Decimal (Dec.mk 4200050 (-2)) = "42000.50".
Proof.
  repeat split; vm_compute; reflexivity.
Qed.

Lemma on_message_without_c (cell : PyCell) (message : string)
    (kv : list (string * json)) :
  json_loads message = Ok (JObj kv) ->
  dict_has "c" kv = false ->
  on_message cell message = Ok cell.
Proof.
  intros Hj Hc. unfold on_message. rewrite Hj. simpl. rewrite Hc. reflexivity.
Qed.

(** C8.  A message whose JSON object has no field [c] leaves the cell as it
    was and raises nothing: the feed loop goes on to the next [recv]. *)
Theorem C8_message_without_price_ignored (cell : PyCell) (message : string)
    (kv : list (string * json)) (rest : list Recv) :
  json_loads message = Ok (JObj kv) ->
  dict_has "c" kv = false ->
  on_message cell message = Ok cell
  /\ streaming cell (Message message :: rest) = streaming cell rest.
Proof.
  intros Hj Hc.
  pose proof (on_message_without_c cell message kv Hj Hc) as H.
  split; [exact H|]. simpl. rewrite H. reflexivity.
Qed.

Lemma C8_witness :
  json_loads ack_message = Ok (JObj [("result", JNull); ("id", JInt 1)])
  /\ on_message a_cell ack_message = Ok a_cell
  /\ streaming a_cell [Message ack_message; Message ack_message]
     = streaming a_cell [Message ack_message].
Proof.
  pose proof (C8_message_without_price_ignored a_cell ack_message
                [("result", JNull); ("id", JInt 1)] [Message ack_message]
                eq_refl eq_refl) as [H1 H2].
  split; [reflexivity|]. split; [exact H1 | exact H2].
Defined.

(** ** The signed API client *)

Lemma string_length_append (a b : string) :
  String.length (a ++ b) = (String.length a + String.length b)%nat.
Proof.
  induction a as [|c a IH]; simpl; [reflexivity | now rewrite IH].
Qed.

Lemma append_not_self (a : string) (c : ascii) (b : string) :
  a ++ String c b <> a.
Proof.
  intros H. apply (f_equal String.length) in H.
  rewrite string_length_append in H. simpl in H. lia.
Qed.

Lemma string_append_assoc (a b c : string) :
  (a ++ b) ++ c = a ++ (b ++ c).
Proof.
  induction a as [|x a IH]; simpl; [reflexivity | now rewrite IH].
Qed.

Section ApiBinanceFacts.

Context {hm : Hmac}.
Variable config : Config.
Variable currency : Currency.

Lemma order_request_query (side : string) (price : option Dec.Decimal) (ts : Z) :
  query_string (req_params (order_request config currency side price ts))
  = order_params_string config currency side None ts.
Proof.
  unfold order_request, order_params_string. simpl. reflexivity.
Qed.

Lemma create_order_rejected (side : string) (price : option Dec.Decimal) (io : OrderIO) :
  status_code (order_response io) <> 200 ->
  create_order config currency side price io
  = ([order_request config currency side price (order_time_ms io)], Ok (Dec.of_Z 0)).
Proof.
  intros H. unfold create_order.
  destruct (Z.eqb_spec (status_code (order_response io)) 200) as [E|E];
    [contradiction | reflexivity].
Qed.

Lemma filter_balances_returns (asset : string) (l : list json) :
  Forall (fun i => has_field i "asset") l ->
  exists balance, filter_balances asset l = Ok balance.
Proof.
  induction 1 as [|i l [a Ha] _ [tl IH]]; cbn [filter_balances].
  - eexists. reflexivity.
  - rewrite Ha, IH. cbn [bind]. eexists. reflexivity.
Qed.

(** The balance lookup returns, whatever the status of the answer. *)
Lemma get_balance_returns (ts : Z) (response : Response) :
  account_answer response ->
  exists b, snd (get_balance config currency ts response) = Ok b.
Proof.
  intros H. unfold get_balance. cbn [snd].
  destruct (Z.eqb_spec (status_code response) 200) as [E|E].
  - destruct (H E) as (j & l & Hj & Hb & Hl).
    rewrite Hj. cbn [bind]. rewrite Hb. cbn [bind iter_balances].
    destruct (filter_balances_returns (cur_asset currency) l Hl) as [balance ->].
    cbn [bind]. eexists. reflexivity.
  - eexists. reflexivity.
Qed.

Lemma create_order_filled (side : string) (price : option Dec.Decimal) (io : OrderIO)
    (order_data : json) (s : string) (d : Dec.Decimal) :
  status_code (order_response io) = 200 ->
  json_loads (text (order_response io)) = Ok order_data ->
  order_confirmation order_data ->
  first_fill_price order_data = Ok (JStr s) ->
  Decimal_of_string s = Some d ->
  account_answer (balance_response io) ->
  create_order config currency side price io
  = ([order_request config currency side price (order_time_ms io);
      fst (get_balance config currency (balance_time_ms io) (balance_response io))],
     Ok d).
Proof.
  intros Hs Hj (Hsym & Hid & Hqty & Hside & Hstatus) Hfill Hd Hacc.
  destruct (get_balance_returns (balance_time_ms io) (balance_response io) Hacc)
    as [b Hb].
  unfold create_order. rewrite Hs, Z.eqb_refl, Hj. cbn [bind].
  destruct Hsym as [v1 ->]. destruct Hid as [v2 ->].
  destruct Hqty as [v3 ->]. destruct Hside as [v4 ->].
  destruct Hstatus as [v5 ->]. rewrite Hfill. cbn [bind].
  destruct (get_balance config currency (balance_time_ms io) (balance_response io))
    as [breq bres] eqn:Eb.
  cbn [fst snd] in *. subst bres. cbn [bind]. rewrite Hfill.
  cbn [bind Decimal_of_json]. rewrite Hd. reflexivity.
Qed.

End ApiBinanceFacts.

(** C6, amended.  [create_order] on a 200: the answer being an order
    confirmation whose first fill carries the price text [s], a numeral, and
    the balance lookup awaited for the log line being answered as the
    exchange answers it (with any status), the call returns the decimal [s]
    denotes, exactly.  On any other status it returns the decimal zero, a
    falsy value, after the one request, whatever the text of the answer: the
    fills are not read. *)
Theorem C6_create_order_result {hm : Hmac} (config : Config) (currency : Currency)
    (side : string) (price : option Dec.Decimal) (io : OrderIO) :
  (status_code (order_response io) = 200 ->
   forall (order_data : json) (s : string) (d : Dec.Decimal),
     json_loads (text (order_response io)) = Ok order_data ->
     order_confirmation order_data ->
     first_fill_price order_data = Ok (JStr s) ->
     Decimal_of_string s = Some d ->
     account_answer (balance_response io) ->
     snd (create_order config currency side price io) = Ok d)
  /\ (status_code (order_response io) <> 200 ->
      create_order config currency side price io
      = ([order_request config currency side price (order_time_ms io)], Ok (Dec.of_Z 0))
      /\ Dec.truthy (Dec.of_Z 0) = false).
Proof.
  split.
  - intros Hs order_data s d Hj Hconf Hfill Hd Hacc.
    rewrite (create_order_filled config currency side price io order_data s d);
      auto.
  - intros Hs. split; [now apply create_order_rejected | reflexivity].
Qed.

Lemma C6_witness :
  snd (@create_order sample_hmac sample_config btc "BUY" None (filled_io "BUY" "100.00"))
  = Ok (Dec.mk 10000 (-2))
  /\ snd (@create_order sample_hmac sample_config btc "BUY" None rejected_io)
     = Ok (Dec.of_Z 0).
Proof.
  split.
  - destruct (@C6_create_order_result sample_hmac sample_config btc "BUY" None
                (filled_io "BUY" "100.00")) as [H _].
    refine (H eq_refl _ "100.00" (Dec.mk 10000 (-2)) eq_refl _ eq_refl eq_refl _).
    + repeat split; eexists; reflexivity.
    + intros _. eexists. eexists. split; [reflexivity|]. split; [reflexivity|].
      repeat constructor; eexists; reflexivity.
  - destruct (@C6_create_order_result sample_hmac sample_config btc "BUY" None
                rejected_io) as [_ H].
    destruct H as [H _]; [discriminate|]. rewrite H. reflexivity.
Defined.

(** C6, as stated, fails on a 200.  The answer below has no fill, and the
    call raises IndexError; the next one has a first fill at 100.00, and the
    call raises KeyError, out of the balance lookup of its log line, instead
    of returning that price. *)
Lemma C6_counterexample :
  status_code (order_response unfilled_io) = 200
  /\ snd (@create_order sample_hmac sample_config btc "BUY" None unfilled_io)
     = Raise IndexError
  /\ status_code (order_response unlogged_io) = 200
  /\ (order_data <- json_loads (text (order_response unlogged_io)) ;;
      first_fill_price order_data) = Ok (JStr "100.00")
  /\ snd (@create_order sample_hmac sample_config btc "BUY" None unlogged_io)
     = Raise KeyError.
Proof.
  repeat split; vm_compute; reflexivity.
Qed.


(** ** The position monitor *)

Section HandlerFacts.

Context {hm : Hmac}.
Variable config : Config.
Variable currency : Currency.

Lemma create_order_requests (side : string) (price : option Dec.Decimal) (io : OrderIO) :
  fst (create_order config currency side price io)
  = [order_request config currency side price (order_time_ms io)]
  \/ fst (create_order config currency side price io)
     = [order_request config currency side price (order_time_ms io);
        fst (get_balance config currency (balance_time_ms io) (balance_response io))].
Proof.
  unfold create_order.
  destruct (status_code (order_response io) =? 200); [|now left].
  match goal with
  | |- context [match ?f with Ok _ => _ | Raise _ => _ | Unmodelled => _ end] =>
      destruct f
  end; try (now left).
  destruct (get_balance config currency (balance_time_ms io) (balance_response io)).
  now right.
Qed.

Lemma count_orders_app (side : SideStatuses) (l1 l2 : list Event) :
  count_orders side (l1 ++ l2)%list
  = (count_orders side l1 + count_orders side l2)%nat.
Proof.
  unfold count_orders. rewrite filter_app, length_app. reflexivity.
Qed.

Lemma count_orders_sleeps (side : SideStatuses) (n : nat) :
  count_orders side (repeat (EvSleep 200) n) = 0%nat.
Proof.
  induction n as [|n IH]; [reflexivity | exact IH].
Qed.


Lemma is_order_value (side side' : SideStatuses) (price : option Dec.Decimal) (ts : Z) :
  is_order side (order_request config currency (SideStatuses_value side') price ts)
  = String.eqb (SideStatuses_value side') (SideStatuses_value side).
Proof. reflexivity. Qed.

(** The requests of one [create_order] hold one order, of its own side. *)
Lemma count_orders_create_order (side side' : SideStatuses) (io : OrderIO) :
  count_orders side
    (map EvRequest (fst (create_order config currency (SideStatuses_value side') None io)))
  = if String.eqb (SideStatuses_value side') (SideStatuses_value side)
    then 1%nat else 0%nat.
Proof.
  destruct (create_order_requests (SideStatuses_value side') None io) as [-> | ->];
    unfold count_orders; cbn [map filter is_order_event];
    rewrite is_order_value;
    destruct (String.eqb (SideStatuses_value side') (SideStatuses_value side));
    reflexivity.
Qed.

Lemma sleeps_before_order_found (side : SideStatuses) (n : nat) (io : OrderIO) (tl : list Event) :
  sleeps_before_order side
    (repeat (EvSleep 200) n
       ++ map EvRequest (fst (create_order config currency (SideStatuses_value side) None io))
       ++ tl)%list
  = n.
Proof.
  induction n as [|n IH]; cbn [repeat app sleeps_before_order is_order_event is_sleep].
  - destruct (create_order_requests (SideStatuses_value side) None io) as [-> | ->];
      cbn [map app sleeps_before_order is_order_event];
      rewrite is_order_value, String.eqb_refl; reflexivity.
  - rewrite IH. reflexivity.
Qed.

(** The requests of an order of another side are passed over. *)
Lemma sleeps_before_order_other (side side' : SideStatuses) (io : OrderIO) (tl : list Event) :
  String.eqb (SideStatuses_value side') (SideStatuses_value side) = false ->
  sleeps_before_order side
    (map EvRequest (fst (create_order config currency (SideStatuses_value side') None io))
       ++ tl)%list
  = sleeps_before_order side tl.
Proof.
  intros Hne.
  destruct (create_order_requests (SideStatuses_value side') None io) as [-> | ->];
    cbn [map app sleeps_before_order is_order_event is_sleep];
    rewrite is_order_value, Hne; reflexivity.
Qed.

(** The loop sleeps through the polls at which the condition is false and
    sells at the first one at which it is true. *)
Lemma polling_sells_at_first_trigger (io : CycleIO) (down up : Dec.Decimal)
    (end_timestamp : Z) (n : nat) :
  forall (fuel k : nat),
    (forall j, (j < n)%nat -> poll_is io down up end_timestamp (k + j) false) ->
    poll_is io down up end_timestamp (k + n) true ->
    (n < fuel)%nat ->
    polling config currency io down up end_timestamp fuel k
    = ((repeat (EvSleep 200) n
         ++ map EvRequest
              (fst (create_order config currency (SideStatuses_value SELL) None (sell_io io))))%list,
       Some (_ <- snd (create_order config currency (SideStatuses_value SELL) None (sell_io io)) ;;
             Ok tt)).
Proof.
  induction n as [|n IH]; intros fuel k Hbefore Hat Hfuel.
  - destruct fuel as [|fuel]; [lia|].
    destruct Hat as (asset & price & Hcell & Hcond).
    rewrite Nat.add_0_r in Hcell, Hcond.
    cbn [polling]. rewrite Hcell, Hcond.
    destruct (create_order config currency (SideStatuses_value SELL) None (sell_io io)).
    reflexivity.
  - destruct fuel as [|fuel]; [lia|].
    destruct (Hbefore 0%nat ltac:(lia)) as (asset & price & Hcell & Hcond).
    rewrite Nat.add_0_r in Hcell, Hcond.
    cbn [polling]. rewrite Hcell, Hcond.
    rewrite (IH fuel (S k)).
    + reflexivity.
    + intros j Hj. replace (S k + j)%nat with (k + S j)%nat by lia.
      apply Hbefore. lia.
    + replace (S k + n)%nat with (k + S n)%nat by lia. exact Hat.
    + lia.
Qed.

(** A poll that finds the int in the cell raises, whatever the clock. *)
Lemma polling_unpopulated (io : CycleIO) (down up : Dec.Decimal)
    (end_timestamp : Z) (fuel k : nat) (n : Z) :
  tick_cell (ticks io k) = CellInt n ->
  polling config currency io down up end_timestamp (S fuel) k
  = ([], Some (Raise TypeError)).
Proof.
  intros H. cbn [polling]. rewrite H. reflexivity.
Qed.

End HandlerFacts.

(** C10.  The first request [create_order] sends is the order, a POST that
    never carries a [price] parameter.  Its signature is the HMAC-SHA256,
    under the secret key, of a string built before the request: with no price
    argument (or a falsy one) that string is the query string of the
    parameters sent; with a truthy price it is that query string followed by
    [&price=...], a different string: the signature sent is not the one of
    the parameters sent. *)
Theorem C10_signed_string_and_body {hm : Hmac} (config : Config) (currency : Currency)
    (side : string) (price : option Dec.Decimal) (io : OrderIO) :
  exists request rest,
    fst (create_order config currency side price io) = (request :: rest)%list
    /\ req_method request = POST
    /\ param "price" (req_params request) = None
    /\ query_string (req_params request)
       = "symbol=" ++ cur_symbol currency ++ "&side=" ++ side
           ++ "&type=" ++ order_type config
           ++ "&quantity=" ++ quantity_currency config
           ++ "&timestamp=" ++ str_of_Z (order_time_ms io)
           ++ "&recvWindow=" ++ str_of_Z (RECV_WINDOW config)
    /\ match price with
       | Some p =>
           if Dec.truthy p
           then param "signature" (req_params request)
                = Some (hmac_sha256_hexdigest (secret_key config)
                          (query_string (req_params request)
                             ++ "&price=" ++ str_of_Decimal p))
                /\ query_string (req_params request) ++ "&price=" ++ str_of_Decimal p
                   <> query_string (req_params request)
           else param "signature" (req_params request)
                = Some (hmac_sha256_hexdigest (secret_key config)
                          (query_string (req_params request)))
       | None =>
           param "signature" (req_params request)
           = Some (hmac_sha256_hexdigest (secret_key config)
                     (query_string (req_params request)))
       end.
Proof.
  exists (order_request config currency side price (order_time_ms io)).
  assert (Hfst : exists rest,
             fst (create_order config currency side price io)
             = (order_request config currency side price (order_time_ms io) :: rest)%list).
  { destruct (create_order_requests config currency side price io) as [-> | ->];
      eexists; reflexivity. }
  destruct Hfst as [rest Hfst]. exists rest.
  split; [exact Hfst|]. split; [reflexivity|]. split; [reflexivity|].
  rewrite order_request_query.
  split; [reflexivity|].
  unfold order_request, get_signature, order_params_string. cbn [req_params param].
  cbn [String.eqb Ascii.eqb Bool.eqb].
  destruct price as [p|]; [|reflexivity].
  destruct (Dec.truthy p); [|reflexivity].
  split; [reflexivity|]. apply append_not_self.
Qed.

Lemma Config_init_fields (getenv : string -> option string) (cfg : Config) :
  Config_init getenv = Ok cfg ->
  getenv_float getenv "sales_ratio" = Ok (sales_ratio cfg)
  /\ price_currency cfg = CellInt 0.
Proof.
  unfold Config_init. intros H.
  repeat match type of H with
         | bind ?r _ = Ok _ => destruct r eqn:?; cbn [bind] in H; try discriminate
         end.
  injection H as <-. cbn [sales_ratio price_currency]. split; reflexivity.
Qed.

Lemma Config_init_sample : Config_init sample_env = Ok sample_config.
Proof. vm_compute. reflexivity. Qed.

(** C2.  A buy that returns the zero decimal ends the cycle at once: the
    trace is the requests of the buy and nothing else, whatever the ratio, the
    feed and the clock; no poll, no sleep, no SELL order. *)
Theorem C2_failed_buy_no_sell {hm : Hmac} (config : Config) (currency : Currency)
    (io : CycleIO) (fuel : nat) (purchase_price : Dec.Decimal) :
  snd (create_order config currency (SideStatuses_value BUY) None (buy_io io))
  = Ok purchase_price ->
  Dec.truthy purchase_price = false ->
  task_checking_prices config currency io fuel
  = (map EvRequest
       (fst (create_order config currency (SideStatuses_value BUY) None (buy_io io))),
     Some (Ok tt))
  /\ count_orders SELL (fst (task_checking_prices config currency io fuel)) = 0%nat
  /\ filter is_sleep (fst (task_checking_prices config currency io fuel)) = [].
Proof.
  intros Hbuy Hzero.
  assert (E : task_checking_prices config currency io fuel
              = (map EvRequest
                   (fst (create_order config currency (SideStatuses_value BUY) None (buy_io io))),
                 Some (Ok tt))).
  { unfold task_checking_prices.
    destruct (create_order config currency (SideStatuses_value BUY) None (buy_io io))
      as [requests r].
    cbn [fst snd] in *. subst r. rewrite Hzero. reflexivity. }
  rewrite E. cbn [fst]. split; [reflexivity|]. split.
  - rewrite (count_orders_create_order config currency SELL BUY). reflexivity.
  - destruct (create_order_requests config currency (SideStatuses_value BUY) None (buy_io io))
      as [-> | ->]; reflexivity.
Qed.

Lemma C2_witness :
  count_orders SELL
    (fst (@task_checking_prices sample_hmac sample_config btc rejected_cycle 100))
  = 0%nat.
Proof.
  apply (@C2_failed_buy_no_sell sample_hmac sample_config btc rejected_cycle 100
           (Dec.of_Z 0)); reflexivity.
Defined.

(** C9.  [Config.__init__] binds the shared cell to the int 0, and the feed
    leaves it so as long as it has received no message.  A cycle whose buy
    succeeded and whose first poll still finds that value raises a TypeError
    at the subscript, deadline reached or not: the trace is the requests of
    the buy, and no SELL order is sent. *)
Theorem C9_unpopulated_cell_raises {hm : Hmac} (getenv : string -> option string)
    (config : Config) (currency : Currency) (io : CycleIO) (fuel : nat)
    (purchase_price : Dec.Decimal) :
  Config_init getenv = Ok config ->
  snd (create_order config currency (SideStatuses_value BUY) None (buy_io io))
  = Ok purchase_price ->
  Dec.truthy purchase_price = true ->
  tick_cell (ticks io 0) = price_currency config ->
  price_currency config = CellInt 0
  /\ task_checking_prices config currency io (S fuel)
     = (map EvRequest
          (fst (create_order config currency (SideStatuses_value BUY) None (buy_io io))),
        Some (Raise TypeError))
  /\ count_orders SELL (fst (task_checking_prices config currency io (S fuel))) = 0%nat
  /\ (forall name N,
        snd (fst (load_data config name (repeat ConnectionClosed N))) = CellInt 0).
Proof.
  intros Hinit Hbuy Htruthy Hcell.
  destruct (Config_init_fields getenv config Hinit) as [_ Hzero].
  rewrite Hzero in Hcell.
  assert (E : task_checking_prices config currency io (S fuel)
              = (map EvRequest
                   (fst (create_order config currency (SideStatuses_value BUY) None (buy_io io))),
                 Some (Raise TypeError))).
  { unfold task_checking_prices.
    destruct (create_order config currency (SideStatuses_value BUY) None (buy_io io))
      as [requests r].
    cbn [fst snd] in *. subst r. rewrite Htruthy.
    rewrite (polling_unpopulated config currency io _ _ _ fuel 0%nat 0 Hcell).
    rewrite app_nil_r. reflexivity. }
  split; [exact Hzero|]. split; [exact E|]. split.
  - rewrite E. cbn [fst].
    rewrite (count_orders_create_order config currency SELL BUY). reflexivity.
  - intros name N. unfold load_data. rewrite streaming_closed.
    cbn [fst snd]. exact Hzero.
Qed.

Lemma C9_witness :
  @task_checking_prices sample_hmac sample_config btc stalled_cycle 1
  = (map EvRequest
       (fst (@create_order sample_hmac sample_config btc "BUY" None
               (filled_io "BUY" "100.00"))),
     Some (Raise TypeError)).
Proof.
  apply (@C9_unpopulated_cell_raises sample_hmac sample_env sample_config btc
           stalled_cycle 0 (Dec.mk 10000 (-2)));
    vm_compute; reflexivity.
Defined.

(** C1, as stated, fails when the feed has stored nothing yet: the buy below
    returns 100.00 and the deadline has passed at the first poll, yet the
    cycle ends with a TypeError and without any SELL order. *)
Lemma C1_counterexample :
  snd (@create_order sample_hmac sample_config btc (SideStatuses_value BUY) None
         (buy_io stalled_cycle))
  = Ok (Dec.mk 10000 (-2))
  /\ Dec.truthy (Dec.mk 10000 (-2)) = true
  /\ (start_now stalled_cycle + timedelta_seconds (duration sample_config)
      <=? tick_now (ticks stalled_cycle 0)) = true
  /\ snd (@task_checking_prices sample_hmac sample_config btc stalled_cycle 1)
     = Some (Raise TypeError)
  /\ count_orders SELL
       (fst (@task_checking_prices sample_hmac sample_config btc stalled_cycle 1))
     = 0%nat.
Proof.
  repeat split; vm_compute; reflexivity.
Qed.

(** C1, amended.  In a cycle whose buy returns a non-zero price, let the
    [n]-th poll be the first at which latest price <= lower bound, or latest
    price >= upper bound, or now >= deadline, the cell holding a price at
    every poll up to that one.  Then the loop sleeps 0.2 s after each of the
    [n] polls before, sends the requests of one sell at the [n]-th and ends:
    the trace holds exactly one SELL order, after exactly [n] sleeps.  If the
    price is inside the band at that poll, the deadline has been reached. *)
Theorem C1_one_sell_at_first_trigger {hm : Hmac} (config : Config) (currency : Currency)
    (io : CycleIO) (fuel n : nat) (purchase_price : Dec.Decimal) :
  let down := down_price config purchase_price in
  let up := up_price config purchase_price in
  let end_timestamp := start_now io + timedelta_seconds (duration config) in
  let buy := create_order config currency (SideStatuses_value BUY) None (buy_io io) in
  let sell := create_order config currency (SideStatuses_value SELL) None (sell_io io) in
  snd buy = Ok purchase_price ->
  Dec.truthy purchase_price = true ->
  (forall j, (j < n)%nat -> poll_is io down up end_timestamp j false) ->
  poll_is io down up end_timestamp n true ->
  (n < fuel)%nat ->
  task_checking_prices config currency io fuel
  = ((map EvRequest (fst buy) ++ repeat (EvSleep 200) n ++ map EvRequest (fst sell))%list,
     Some (_ <- snd sell ;; Ok tt))
  /\ count_orders SELL (fst (task_checking_prices config currency io fuel)) = 1%nat
  /\ sleeps_before_order SELL (fst (task_checking_prices config currency io fuel)) = n
  /\ (forall asset price,
        tick_cell (ticks io n) = CellDict asset price ->
        Dec.leb price down = false -> Dec.geb price up = false ->
        end_timestamp <= tick_now (ticks io n)).
Proof.
  intros down up end_timestamp buy sell Hbuy Htruthy Hbefore Hat Hfuel.
  assert (E : task_checking_prices config currency io fuel
              = ((map EvRequest (fst buy) ++ repeat (EvSleep 200) n
                    ++ map EvRequest (fst sell))%list,
                 Some (_ <- snd sell ;; Ok tt))).
  { unfold task_checking_prices. fold buy.
    destruct buy as [requests r]. cbn [fst snd] in *. subst r.
    rewrite Htruthy.
    rewrite (polling_sells_at_first_trigger config currency io _ _ _ n fuel 0%nat);
      auto. }
  rewrite E. cbn [fst]. split; [reflexivity|]. split; [|split].
  - rewrite !count_orders_app, count_orders_sleeps.
    subst buy sell.
    rewrite (count_orders_create_order config currency SELL BUY).
    rewrite (count_orders_create_order config currency SELL SELL).
    reflexivity.
  - subst buy sell.
    rewrite (sleeps_before_order_other config currency SELL BUY) by reflexivity.
    rewrite <- (app_nil_r (map EvRequest _)).
    apply (sleeps_before_order_found config currency SELL n (sell_io io) []).
  - intros asset price Hcell Hlow Hhigh.
    destruct Hat as (asset' & price' & Hcell' & Hcond).
    rewrite Hcell in Hcell'. injection Hcell' as <- <-.
    unfold sell_condition in Hcond. rewrite Hlow, Hhigh in Hcond.
    cbn [orb] in Hcond. now apply Z.leb_le.
Qed.

Lemma C1_witness :
  count_orders SELL
    (fst (@task_checking_prices sample_hmac sample_config btc rising_cycle 10))
  = 1%nat
  /\ sleeps_before_order SELL
       (fst (@task_checking_prices sample_hmac sample_config btc rising_cycle 10))
     = 2%nat.
Proof.
  destruct (@C1_one_sell_at_first_trigger sample_hmac sample_config btc
              rising_cycle 10 2 (Dec.mk 10000 (-2)))
    as (_ & Hone & Hat & _).
  - reflexivity.
  - reflexivity.
  - intros j Hj. destruct j as [|[|j]]; [| |lia];
      eexists; eexists; split; vm_compute; reflexivity.
  - eexists; eexists; split; vm_compute; reflexivity.
  - lia.
  - split; [exact Hone | exact Hat].
Defined.

(** ** Decimal arithmetic *)

Lemma ndigits_fuel_spec (fuel : nat) :
  forall n, 0 < n < 10 ^ Z.of_nat fuel ->
    10 ^ (Dec.ndigits_fuel fuel n - 1) <= n < 10 ^ Dec.ndigits_fuel fuel n
    /\ 1 <= Dec.ndigits_fuel fuel n.
Proof.
  induction fuel as [|fuel IH]; intros n Hn.
  - simpl in Hn. lia.
  - cbn [Dec.ndigits_fuel].
    destruct (Z.ltb_spec n 10) as [Hlt|Hge].
    + simpl. lia.
    + assert (Hq : 0 < n / 10 < 10 ^ Z.of_nat fuel).
      { split.
        - apply Z.div_str_pos. lia.
        - apply Z.div_lt_upper_bound; [lia|].
          rewrite Nat2Z.inj_succ, Z.pow_succ_r in Hn by lia. lia. }
      destruct (IH (n / 10) Hq) as [[Hlo Hhi] H1].
      set (d := Dec.ndigits_fuel fuel (n / 10)) in *.
      replace (1 + d - 1) with (Z.succ (d - 1)) by lia.
      replace (1 + d) with (Z.succ d) by lia.
      rewrite !Z.pow_succ_r by lia.
      pose proof (Z.div_mod n 10 ltac:(lia)) as Hdm.
      pose proof (Z.mod_pos_bound n 10 ltac:(lia)) as Hm.
      lia.
Qed.

Lemma ndigits_spec (n : Z) :
  0 < n -> 10 ^ (Dec.ndigits n - 1) <= n < 10 ^ Dec.ndigits n /\ 1 <= Dec.ndigits n.
Proof.
  intros Hn. unfold Dec.ndigits. apply ndigits_fuel_spec.
  split; [exact Hn|].
  rewrite Nat2Z.inj_succ, Z2Nat.id by apply Z.log2_nonneg.
  destruct (Z.log2_spec n Hn) as [_ Hhi].
  eapply Z.lt_le_trans; [exact Hhi|].
  apply Z.pow_le_mono_l. lia.
Qed.

Lemma div_half_even_spec (a k : Z) :
  0 <= a -> 0 < k ->
  2 * Z.abs (Dec.div_half_even a k * 10 ^ k - a) <= 10 ^ k.
Proof.
  intros Ha Hk. unfold Dec.div_half_even.
  assert (Hp : 10 ^ k = 10 * 10 ^ (k - 1)).
  { replace k with (Z.succ (k - 1)) at 1 by lia. apply Z.pow_succ_r. lia. }
  assert (Hpos : 0 < 10 ^ (k - 1)) by (apply Z.pow_pos_nonneg; lia).
  pose proof (Z.div_mod a (10 ^ k) ltac:(lia)) as Hdm.
  pose proof (Z.mod_pos_bound a (10 ^ k) ltac:(lia)) as Hm.
  set (p := 10 ^ k) in *. set (h := 10 ^ (k - 1)) in *.
  set (q := a / p) in *. set (r := a mod p) in *.
  destruct (Z.ltb_spec (5 * h) r) as [H1|H1]; cbn [orb].
  - nia.
  - destruct (Z.eqb_spec r (5 * h)) as [H2|H2]; cbn [andb].
    + destruct (Z.odd q); nia.
    + nia.
Qed.

Lemma pow10_pos (e : Z) : (0 < (10 # 1) ^ e)%Q.
Proof. apply Qpower_0_lt. reflexivity. Qed.

Lemma pow10_add (a b : Z) : ((10 # 1) ^ (a + b) == (10 # 1) ^ a * (10 # 1) ^ b)%Q.
Proof. apply Qpower_plus. discriminate. Qed.

Lemma pow10_inject (k : Z) : 0 <= k -> (inject_Z (10 ^ k) == (10 # 1) ^ k)%Q.
Proof. intros Hk. now rewrite Zpower_Qpower. Qed.

(** Moving a power of ten from the exponent into the coefficient. *)
Lemma to_Q_shift (c e k : Z) :
  0 <= k ->
  (inject_Z c * (10 # 1) ^ (e + k) == inject_Z (c * 10 ^ k) * (10 # 1) ^ e)%Q.
Proof.
  intros Hk. rewrite pow10_add, inject_Z_mult, pow10_inject by exact Hk. ring.
Qed.

Lemma fix_fits (d : Dec.Decimal) : Dec.fits d = true -> Dec.fix_ d = d.
Proof. unfold Dec.fits, Dec.fix_. intros ->. reflexivity. Qed.

(** The value [fix_] gives when digits are dropped: the coefficient divided
    by [10 ^ k], half-even, at the exponent raised by [k]. *)
Lemma fix_value (d : Dec.Decimal) :
  Dec.fits d = false ->
  let a := Z.abs (Dec.coef d) in
  let k := Dec.ndigits a - Dec.prec in
  (Dec.to_Q (Dec.fix_ d)
   == inject_Z (Z.sgn (Dec.coef d) * Dec.div_half_even a k) * (10 # 1) ^ (Dec.dexp d + k))%Q
  /\ 0 < k.
Proof.
  intros Hfit a k. unfold Dec.fits in Hfit. fold a in Hfit.
  unfold Dec.fix_. fold a. rewrite Hfit. fold k.
  assert (Hk : 0 < k) by (apply Z.leb_gt in Hfit; subst k; lia).
  split; [|exact Hk].
  destruct (Z.eqb_spec (Dec.div_half_even a k) (10 ^ Dec.prec)) as [E|E].
  - unfold Dec.to_Q. cbn [Dec.coef Dec.dexp]. rewrite E.
    replace (Dec.dexp d + k + 1) with ((Dec.dexp d + k) + 1) by lia.
    rewrite to_Q_shift by lia.
    replace (Z.sgn (Dec.coef d) * 10 ^ (Dec.prec - 1) * 10 ^ 1)
      with (Z.sgn (Dec.coef d) * 10 ^ Dec.prec) by (vm_compute (10 ^ _); lia).
    reflexivity.
  - reflexivity.
Qed.

(** The relative error of one rounding is at most [half_ulp]. *)
Lemma fix_error (d : Dec.Decimal) :
  (Qabs (Dec.to_Q (Dec.fix_ d) - Dec.to_Q d) <= Dec.half_ulp * Qabs (Dec.to_Q d))%Q.
Proof.
  destruct (Dec.fits d) eqn:Hfit.
  - rewrite fix_fits by exact Hfit.
    setoid_replace (Dec.to_Q d - Dec.to_Q d)%Q with 0%Q by ring.
    apply Qmult_le_0_compat; [discriminate | apply Qabs_nonneg].
  - destruct (fix_value d Hfit) as [Hv Hk].
    set (c := Dec.coef d) in *. set (a := Z.abs c) in *.
    set (k := Dec.ndigits a - Dec.prec) in *.
    set (q := Dec.div_half_even a k) in *.
    assert (Ha : 0 < a).
    { unfold Dec.fits in Hfit. fold c a in Hfit. apply Z.leb_gt in Hfit.
      pose proof (Z.abs_nonneg c) as Hnn. fold a in Hnn.
      destruct (Z.eq_dec a 0) as [E|E]; [rewrite E in Hfit; vm_compute in Hfit; discriminate | lia]. }
    destruct (ndigits_spec a Ha) as [[Hlo _] _].
    pose proof (div_half_even_spec a k ltac:(lia) Hk) as Hq.
    rewrite Hv. unfold Dec.to_Q. fold c.
    rewrite to_Q_shift by lia.
    setoid_replace (inject_Z (Z.sgn c * q * 10 ^ k) * (10 # 1) ^ Dec.dexp d
                    - inject_Z c * (10 # 1) ^ Dec.dexp d)%Q
      with (inject_Z (Z.sgn c * q * 10 ^ k - c) * (10 # 1) ^ Dec.dexp d)%Q
      by (unfold Z.sub; rewrite inject_Z_plus, inject_Z_opp; ring).
    rewrite !Qabs_Qmult.
    rewrite (Qabs_pos ((10 # 1) ^ Dec.dexp d)) by (apply Qlt_le_weak, pow10_pos).
    rewrite Qmult_assoc.
    apply Qmult_le_compat_r; [|apply Qlt_le_weak, pow10_pos].
    assert (Habs : Z.abs (Z.sgn c * q * 10 ^ k - c) = Z.abs (q * 10 ^ k - a)).
    { subst a. destruct (Z.abs_spec c) as [[Hc E]|[Hc E]]; rewrite E in *.
      - assert (Z.sgn c = 1) by (apply Z.sgn_pos; lia). rewrite H. f_equal. lia.
      - assert (Z.sgn c = -1) by (apply Z.sgn_neg; lia). rewrite H.
        rewrite <- Z.abs_opp. f_equal. lia. }
    change (Qabs (inject_Z (Z.sgn c * q * 10 ^ k - c)))
      with (inject_Z (Z.abs (Z.sgn c * q * 10 ^ k - c))).
    change (Qabs (inject_Z c)) with (inject_Z (Z.abs c)). fold a.
    rewrite Habs.
    unfold Dec.half_ulp, Qle, Qmult, inject_Z. cbn [Qnum Qden].
    replace (Dec.ndigits a - 1) with (27 + k) in Hlo by (subst k; unfold Dec.prec; lia).
    rewrite Z.pow_add_r in Hlo by lia.
    change (10 ^ 27) with 1000000000000000000000000000 in Hlo.
    assert (0 < 10 ^ k) by (apply Z.pow_pos_nonneg; lia).
    lia.
Qed.

Lemma to_Q_mul_exact (a b : Dec.Decimal) :
  (Dec.to_Q (Dec.mul_exact a b) == Dec.to_Q a * Dec.to_Q b)%Q.
Proof.
  unfold Dec.to_Q, Dec.mul_exact. cbn [Dec.coef Dec.dexp].
  rewrite inject_Z_mult, pow10_add. ring.
Qed.

Lemma to_Q_align (a : Dec.Decimal) (e : Z) :
  e <= Dec.dexp a ->
  (Dec.to_Q a == inject_Z (Dec.align a e) * (10 # 1) ^ e)%Q.
Proof.
  intros He. unfold Dec.to_Q, Dec.align.
  rewrite <- to_Q_shift by lia.
  replace (e + (Dec.dexp a - e)) with (Dec.dexp a) by lia. reflexivity.
Qed.

Lemma to_Q_add_exact (a b : Dec.Decimal) :
  (Dec.to_Q (Dec.add_exact a b) == Dec.to_Q a + Dec.to_Q b)%Q.
Proof.
  set (e := Z.min (Dec.dexp a) (Dec.dexp b)).
  rewrite (to_Q_align a e), (to_Q_align b e) by (subst e; lia).
  unfold Dec.add_exact, Dec.to_Q. fold e. cbn [Dec.coef Dec.dexp].
  rewrite inject_Z_plus. ring.
Qed.

Lemma to_Q_neg (a : Dec.Decimal) : (Dec.to_Q (Dec.neg a) == - Dec.to_Q a)%Q.
Proof.
  unfold Dec.to_Q, Dec.neg. cbn [Dec.coef Dec.dexp]. rewrite inject_Z_opp. ring.
Qed.

Lemma to_Q_sub_exact (a b : Dec.Decimal) :
  (Dec.to_Q (Dec.sub_exact a b) == Dec.to_Q a - Dec.to_Q b)%Q.
Proof.
  unfold Dec.sub_exact. rewrite to_Q_add_exact, to_Q_neg. ring.
Qed.

(** The comparison of two decimals is the comparison of their values. *)
Lemma compare_to_Q (a b : Dec.Decimal) :
  Dec.compare a b = (Dec.to_Q a ?= Dec.to_Q b)%Q.
Proof.
  set (e := Z.min (Dec.dexp a) (Dec.dexp b)).
  rewrite (Qcompare_comp _ _ (to_Q_align a e ltac:(subst e; lia))
                         _ _ (to_Q_align b e ltac:(subst e; lia))).
  unfold Dec.compare. fold e.
  set (x := Dec.align a e). set (y := Dec.align b e).
  pose proof (pow10_pos e) as Hpos.
  destruct (Z.compare_spec x y) as [E|E|E]; symmetry.
  - apply Qeq_alt. unfold x, y in *. rewrite E. apply Qeq_refl.
  - apply Qlt_alt. apply Qmult_lt_compat_r; [exact Hpos|].
    now rewrite <- Zlt_Qlt.
  - apply Qgt_alt. apply Qmult_lt_compat_r; [exact Hpos|].
    now rewrite <- Zlt_Qlt.
Qed.

Lemma ltb_to_Q (a b : Dec.Decimal) :
  Dec.ltb a b = true <-> (Dec.to_Q a < Dec.to_Q b)%Q.
Proof.
  unfold Dec.ltb. rewrite compare_to_Q, Qlt_alt.
  destruct (Dec.to_Q a ?= Dec.to_Q b)%Q; split; congruence.
Qed.

Lemma leb_to_Q (a b : Dec.Decimal) :
  Dec.leb a b = true <-> (Dec.to_Q a <= Dec.to_Q b)%Q.
Proof.
  unfold Dec.leb. rewrite compare_to_Q, Qle_alt.
  destruct (Dec.to_Q a ?= Dec.to_Q b)%Q; split; congruence.
Qed.

(** [lowest_terms] keeps the fraction [m / 2 ^ k]. *)
Lemma lowest_terms_spec (fuel : nat) :
  forall m k, 0 <= k ->
    let '(n, k') := Float.lowest_terms fuel m k in
    0 <= k' <= k /\ m = n * 2 ^ (k - k').
Proof.
  induction fuel as [|fuel IH]; intros m k Hk; cbn [Float.lowest_terms].
  - split; [lia|]. rewrite Z.sub_diag. simpl. lia.
  - destruct ((0 <? k) && Z.even m && negb (m =? 0)) eqn:E.
    + apply andb_prop in E as [E _]. apply andb_prop in E as [Ek Em].
      apply Z.ltb_lt in Ek.
      specialize (IH (m / 2) (k - 1) ltac:(lia)).
      destruct (Float.lowest_terms fuel (m / 2) (k - 1)) as [n k'].
      destruct IH as [Hk' Hm]. split; [lia|].
      replace (k - k') with (Z.succ (k - 1 - k')) by lia.
      rewrite Z.pow_succ_r by lia.
      apply Z.even_spec in Em. destruct Em as [h Eh].
      rewrite Eh in Hm. rewrite Z.mul_comm, Z.div_mul in Hm by lia.
      lia.
    + split; [lia|]. rewrite Z.sub_diag. simpl. lia.
Qed.

Lemma pow2_add (a b : Z) : ((2 # 1) ^ (a + b) == (2 # 1) ^ a * (2 # 1) ^ b)%Q.
Proof. apply Qpower_plus. discriminate. Qed.

Lemma pow2_inject (k : Z) : 0 <= k -> (inject_Z (2 ^ k) == (2 # 1) ^ k)%Q.
Proof. intros Hk. now rewrite Zpower_Qpower. Qed.

Lemma pow5_pow10 (k : Z) :
  0 <= k -> (inject_Z (5 ^ k) * (10 # 1) ^ (- k) == (2 # 1) ^ (- k))%Q.
Proof.
  intros Hk. rewrite !Qpower_opp.
  setoid_replace (10 # 1)%Q with ((2 # 1) * (5 # 1))%Q by reflexivity.
  rewrite Qmult_power. rewrite Zpower_Qpower by exact Hk.
  change (inject_Z 5) with (5 # 1)%Q.
  field. split; apply Qpower_not_0; discriminate.
Qed.

Lemma as_integer_ratio_spec (m e : Z) :
  0 <= m ->
  let '(n, k) := Float.as_integer_ratio (Float.mk m e) in
  0 <= k /\ (inject_Z n * (2 # 1) ^ (- k) == inject_Z m * (2 # 1) ^ e)%Q.
Proof.
  intros Hm. unfold Float.as_integer_ratio. cbn [Float.mant Float.bexp].
  destruct (Z.leb_spec 0 e) as [He|He].
  - split; [lia|]. rewrite inject_Z_mult, pow2_inject by exact He.
    simpl ((2 # 1) ^ (- 0))%Q. ring.
  - destruct (Z.eqb_spec m 0) as [E|E].
    + subst m. split; [lia|]. ring.
    + pose proof (lowest_terms_spec (Z.to_nat (- e)) m (- e) ltac:(lia)) as H.
      destruct (Float.lowest_terms (Z.to_nat (- e)) m (- e)) as [n k].
      destruct H as [Hk Hn]. split; [lia|].
      rewrite Hn at 1. rewrite inject_Z_mult, pow2_inject by lia.
      replace e with ((- k) + - (- e - k)) at 2 by lia.
      rewrite pow2_add, (Qpower_opp _ (- e - k)).
      field. apply Qpower_not_0. discriminate.
Qed.

(** [Decimal(f)] has the value of [f]. *)
Lemma to_Q_Decimal_of_float (f : Float.float) :
  (Dec.to_Q (Decimal_of_float f) == Float.to_Q f)%Q.
Proof.
  destruct f as [m e]. unfold Decimal_of_float, Float.to_Q.
  cbn [Float.mant Float.bexp].
  pose proof (as_integer_ratio_spec (Z.abs m) e (Z.abs_nonneg m)) as H.
  destruct (Float.as_integer_ratio (Float.mk (Z.abs m) e)) as [n k].
  destruct H as [Hk Hn].
  unfold Dec.to_Q. cbn [Dec.coef Dec.dexp].
  rewrite !inject_Z_mult.
  setoid_replace (inject_Z (Z.sgn m) * (inject_Z n * inject_Z (5 ^ k)) * (10 # 1) ^ (- k))%Q
    with (inject_Z (Z.sgn m) * (inject_Z n * (inject_Z (5 ^ k) * (10 # 1) ^ (- k))))%Q
    by ring.
  rewrite pow5_pow10 by exact Hk. rewrite Hn.
  rewrite Qmult_assoc, <- inject_Z_mult.
  replace (Z.sgn m * Z.abs m) with m by (rewrite Z.mul_comm, Z.abs_sgn; reflexivity).
  reflexivity.
Qed.

Section BoundsArithmetic.

Local Open Scope Q_scope.

Lemma Qabs_le_iff (x y : Q) : Qabs x <= y <-> - y <= x /\ x <= y.
Proof. apply Qabs_Qle_condition. Qed.

(** The two roundings of a bound, on rationals: [x] is the rounded product,
    [L] and [U] the rounded difference and sum. *)
Lemma rounded_bounds (p r x L U : Q) :
  0 < p -> 0 < r -> r < 1 ->
  Qabs (x - p * r) <= Dec.half_ulp * Qabs (p * r) ->
  Qabs (L - (p - x)) <= Dec.half_ulp * Qabs (p - x) ->
  Qabs (U - (p + x)) <= Dec.half_ulp * Qabs (p + x) ->
  Qabs (L - p * (1 - r)) <= p * (2 * Dec.half_ulp)
  /\ Qabs (U - p * (1 + r)) <= p * (4 * Dec.half_ulp)
  /\ (2 * Dec.half_ulp <= r -> L < p /\ p < U).
Proof.
  intros Hp Hr0 Hr1 Hx HL HU.
  assert (Hpr0 : 0 < p * r) by (apply Qmult_lt_0_compat; assumption).
  assert (Hpr1 : p * r < p).
  { setoid_replace p with (p * 1) at 2 by ring.
    apply Qmult_lt_l; assumption. }
  rewrite (Qabs_pos (p * r)) in Hx by (apply Qlt_le_weak; exact Hpr0).
  set (pr := p * r) in *.
  apply Qabs_le_iff in Hx. destruct Hx as [Hx1 Hx2].
  unfold Dec.half_ulp in *.
  assert (Hpx : Qabs (p - x) <= p) by (apply Qabs_le_iff; split; lra).
  assert (Hpx' : Qabs (p + x) <= 3 * p) by (apply Qabs_le_iff; split; lra).
  apply Qabs_le_iff in HL. destruct HL as [HL1 HL2].
  apply Qabs_le_iff in HU. destruct HU as [HU1 HU2].
  set (dl := Qabs (p - x)) in *. set (du := Qabs (p + x)) in *.
  setoid_replace (p * (1 - r)) with (p - pr) by (subst pr; ring).
  setoid_replace (p * (1 + r)) with (p + pr) by (subst pr; ring).
  split; [apply Qabs_le_iff; split; lra|].
  split; [apply Qabs_le_iff; split; lra|].
  intros Hr.
  assert (Hpr2 : p * (2 * (1 # 2000000000000000000000000000)) <= pr).
  { subst pr. apply Qmult_le_l; assumption. }
  assert (Hdu : du <= p + x).
  { subst du. rewrite Qabs_pos by lra. lra. }
  split; lra.
Qed.

End BoundsArithmetic.

(** ** The exponent limits of the context *)

(** On the values in range the context does what [Dec.fix_] does. *)
Lemma fix_in_range (d : Dec.Decimal) :
  DefaultContext.in_range d = true -> DefaultContext.fix_ d = Ok (Dec.fix_ d).
Proof.
  unfold DefaultContext.in_range, DefaultContext.fix_, Dec.fix_,
    DefaultContext.adjusted.
  destruct (Z.eqb_spec (Dec.coef d) 0) as [E|E].
  - intros H. apply andb_prop in H as [H1 H2].
    apply Z.leb_le in H1, H2.
    rewrite E. change (Dec.ndigits (Z.abs 0) <=? Dec.prec) with true. cbn iota.
    destruct d as [c e]. cbn [Dec.coef Dec.dexp] in *. subst c.
    f_equal. f_equal. lia.
  - intros H. apply andb_prop in H as [H1 H2].
    apply Z.leb_le in H1. apply Z.ltb_lt in H2.
    set (a := Z.abs (Dec.coef d)) in *. set (n := Dec.ndigits a) in *.
    unfold DefaultContext.Etop, DefaultContext.Etiny, DefaultContext.Emax,
      DefaultContext.Emin, Dec.prec in *.
    destruct (Z.ltb_spec (999999 - 28 + 1) (n + Dec.dexp d - 28)) as [Ho|Ho]; [lia|].
    replace (Z.max (n + Dec.dexp d - 28) (-999999 - 28 + 1))
      with (n + Dec.dexp d - 28) by lia.
    destruct (Z.ltb_spec (Dec.dexp d) (n + Dec.dexp d - 28)) as [Hr|Hr];
      destruct (Z.leb_spec n 28) as [Hf|Hf]; try lia.
    + replace (n + Dec.dexp d - 28 - Dec.dexp d) with (n - 28) by lia.
      destruct (Dec.div_half_even a (n - 28) =? 10 ^ 28).
      * destruct (Z.ltb_spec (999999 - 28 + 1) (n + Dec.dexp d - 28 + 1)); [lia|].
        f_equal. f_equal. lia.
      * destruct (Z.ltb_spec (999999 - 28 + 1) (n + Dec.dexp d - 28)); [lia|].
        f_equal. f_equal. lia.
    + reflexivity.
Qed.

(** The first digit of a non-zero decimal gives its order of magnitude. *)
Lemma adjusted_value (d : Dec.Decimal) :
  Dec.coef d <> 0 ->
  ((10 # 1) ^ DefaultContext.adjusted d <= Qabs (Dec.to_Q d)
   /\ Qabs (Dec.to_Q d) < (10 # 1) ^ (DefaultContext.adjusted d + 1))%Q.
Proof.
  intros Hc. unfold DefaultContext.adjusted, Dec.to_Q.
  set (a := Z.abs (Dec.coef d)). set (e := Dec.dexp d).
  assert (Ha : 0 < a) by (subst a; lia).
  destruct (ndigits_spec a Ha) as [[Hlo Hhi] Hn].
  set (n := Dec.ndigits a) in *.
  rewrite Qabs_Qmult.
  rewrite (Qabs_pos ((10 # 1) ^ e)) by (apply Qlt_le_weak, pow10_pos).
  change (Qabs (inject_Z (Dec.coef d))) with (inject_Z a).
  replace (n + e - 1) with ((n - 1) + e) by lia.
  replace (n - 1 + e + 1) with (n + e) by lia.
  rewrite !pow10_add.
  rewrite <- (pow10_inject (n - 1)), <- (pow10_inject n) by lia.
  split.
  - apply Qmult_le_compat_r; [|apply Qlt_le_weak, pow10_pos].
    now rewrite <- Zle_Qle.
  - apply Qmult_lt_compat_r; [apply pow10_pos|].
    now rewrite <- Zlt_Qlt.
Qed.

Lemma pow10_lt_inv (n m : Z) : ((10 # 1) ^ n < (10 # 1) ^ m)%Q -> n < m.
Proof. intros H. apply (Qpower_lt_compat_l_inv (10 # 1)); [exact H | reflexivity]. Qed.

(** A value between two powers of ten of the range is in range. *)
Lemma in_range_of_value (d : Dec.Decimal) (lo hi : Z) :
  ((10 # 1) ^ lo <= Qabs (Dec.to_Q d))%Q ->
  (Qabs (Dec.to_Q d) < (10 # 1) ^ hi)%Q ->
  DefaultContext.Emin <= lo -> hi <= DefaultContext.Emax ->
  DefaultContext.in_range d = true.
Proof.
  intros Hlo Hhi Hmin Hmax.
  assert (Hc : Dec.coef d <> 0).
  { intros E. unfold Dec.to_Q in Hlo. rewrite E in Hlo.
    setoid_replace (inject_Z 0 * (10 # 1) ^ Dec.dexp d)%Q with 0%Q in Hlo by ring.
    pose proof (pow10_pos lo) as Hpos. change (Qabs 0) with 0%Q in Hlo.
    apply (Qlt_irrefl 0). eapply Qlt_le_trans; eassumption. }
  destruct (adjusted_value d Hc) as [Ha1 Ha2].
  assert (H1 : DefaultContext.adjusted d < hi).
  { apply pow10_lt_inv. eapply Qle_lt_trans; eassumption. }
  assert (H2 : lo < DefaultContext.adjusted d + 1).
  { apply pow10_lt_inv. eapply Qle_lt_trans; eassumption. }
  unfold DefaultContext.in_range.
  destruct (Z.eqb_spec (Dec.coef d) 0) as [E|_]; [contradiction|].
  apply andb_true_intro. split; [apply Z.leb_le | apply Z.ltb_lt]; lia.
Qed.

Section Magnitudes.

Local Open Scope Q_scope.

(** Where the product, the difference and the sum lie, the price being
    between [A] and [10 * A]. *)
Lemma bound_magnitudes (A p r x : Q) :
  0 < A -> A <= p -> p < 10 * A ->
  2 * Dec.half_ulp <= r -> r <= 1 - 2 * Dec.half_ulp ->
  Qabs (x - p * r) <= Dec.half_ulp * Qabs (p * r) ->
  (A * (1 # 1000000000000000000000000000) <= p * r /\ p * r < 10 * A)
  /\ (A * (1 # 10000000000000000000000000000) <= p - x /\ p - x < 10 * A)
  /\ (A <= p + x /\ p + x < 100 * A).
Proof.
  intros HA Hp1 Hp2 Hr1 Hr2 Hx.
  assert (Hp : 0 < p) by lra.
  unfold Dec.half_ulp in *.
  assert (Hpr1 : p * (2 * (1 # 2000000000000000000000000000)) <= p * r)
    by (apply Qmult_le_l; assumption).
  assert (Hpr2 : p * r <= p * (1 - 2 * (1 # 2000000000000000000000000000)))
    by (apply Qmult_le_l; assumption).
  assert (Hpr0 : 0 <= p * r) by lra.
  rewrite (Qabs_pos (p * r)) in Hx by exact Hpr0.
  set (pr := p * r) in *.
  apply Qabs_Qle_condition in Hx. destruct Hx as [Hx1 Hx2].
  repeat split; lra.
Qed.

End Magnitudes.

Lemma pow10_neg27 : ((10 # 1) ^ (-27) == 1 # 1000000000000000000000000000)%Q.
Proof. reflexivity. Qed.

Lemma pow10_neg28 : ((10 # 1) ^ (-28) == 1 # 10000000000000000000000000000)%Q.
Proof. reflexivity. Qed.

Lemma to_Q_pos_coef (d : Dec.Decimal) : (0 < Dec.to_Q d)%Q -> 0 < Dec.coef d.
Proof.
  unfold Dec.to_Q. intros H.
  destruct (Z.lt_trichotomy 0 (Dec.coef d)) as [Hc|[Hc|Hc]]; [exact Hc| |].
  - rewrite <- Hc in H.
    setoid_replace (inject_Z 0 * (10 # 1) ^ Dec.dexp d)%Q with 0%Q in H by ring.
    destruct (Qlt_irrefl _ H).
  - exfalso. apply (Qlt_irrefl 0). eapply Qlt_trans; [exact H|].
    pose proof (pow10_pos (Dec.dexp d)) as Hpos.
    assert (Hneg : (inject_Z (Dec.coef d) < 0)%Q) by (change 0%Q with (inject_Z 0); now rewrite <- Zlt_Qlt).
    setoid_replace 0%Q with (0 * (10 # 1) ^ Dec.dexp d)%Q by ring.
    apply Qmult_lt_compat_r; assumption.
Qed.

(** For a price and a ratio away from the limits, the context computes the
    bounds without raising and without rounding at [Etiny]: they are
    [down_price] and [up_price]. *)
Lemma bounds_in_range (config : Config) (purchase_price : Dec.Decimal) :
  (0 < Dec.to_Q purchase_price)%Q ->
  (2 * Dec.half_ulp <= Float.to_Q (sales_ratio config))%Q ->
  (Float.to_Q (sales_ratio config) <= 1 - 2 * Dec.half_ulp)%Q ->
  DefaultContext.Emin + 28 <= DefaultContext.adjusted purchase_price ->
  DefaultContext.adjusted purchase_price <= DefaultContext.Emax - 2 ->
  bounds_in_context config purchase_price
  = Ok (down_price config purchase_price, up_price config purchase_price).
Proof.
  intros Hp Hr1 Hr2 Ha1 Ha2.
  set (ratio := Decimal_of_float (sales_ratio config)).
  set (r := Float.to_Q (sales_ratio config)) in *.
  set (p := Dec.to_Q purchase_price) in *.
  set (a := DefaultContext.adjusted purchase_price) in *.
  pose proof (to_Q_Decimal_of_float (sales_ratio config)) as Hratio.
  fold ratio r in Hratio.
  assert (Hc : Dec.coef purchase_price <> 0)
    by (pose proof (to_Q_pos_coef purchase_price Hp); lia).
  destruct (adjusted_value purchase_price Hc) as [HA1 HA2].
  fold a p in HA1, HA2.
  rewrite (Qabs_pos p) in HA1, HA2 by (apply Qlt_le_weak; exact Hp).
  rewrite pow10_add in HA2.
  change ((10 # 1) ^ 1)%Q with (10 # 1)%Q in HA2.
  set (A := ((10 # 1) ^ a)%Q) in *.
  assert (HApos : (0 < A)%Q) by apply pow10_pos.
  set (x := Dec.mul purchase_price ratio).
  assert (Hx : (Qabs (Dec.to_Q x - p * r) <= Dec.half_ulp * Qabs (p * r))%Q).
  { pose proof (fix_error (Dec.mul_exact purchase_price ratio)) as H.
    rewrite to_Q_mul_exact, Hratio in H. exact H. }
  destruct (bound_magnitudes A p r (Dec.to_Q x) HApos HA1) as
    ((Hm1 & Hm2) & (Hs1 & Hs2) & (Hu1 & Hu2)); try assumption.
  { setoid_replace (10 * A)%Q with (A * (10 # 1))%Q by ring. exact HA2. }
  assert (E10 : ((10 # 1) ^ (a + 1) == 10 * A)%Q)
    by (rewrite pow10_add; change ((10 # 1) ^ 1)%Q with (10 # 1)%Q; unfold A; ring).
  assert (E100 : ((10 # 1) ^ (a + 2) == 100 * A)%Q)
    by (rewrite pow10_add; change ((10 # 1) ^ 2)%Q with (100 # 1)%Q; unfold A; ring).
  assert (E27 : ((10 # 1) ^ (a + -27) == A * (1 # 1000000000000000000000000000))%Q)
    by (rewrite pow10_add, pow10_neg27; unfold A; ring).
  assert (E28 : ((10 # 1) ^ (a + -28) == A * (1 # 10000000000000000000000000000))%Q)
    by (rewrite pow10_add, pow10_neg28; unfold A; ring).
  unfold DefaultContext.Emin, DefaultContext.Emax in Ha1, Ha2.
  assert (Rm : DefaultContext.in_range (Dec.mul_exact purchase_price ratio) = true).
  { apply (in_range_of_value _ (a + -27) (a + 1));
      unfold DefaultContext.Emin, DefaultContext.Emax; try lia;
      rewrite to_Q_mul_exact, Hratio; fold p;
      rewrite Qabs_pos by lra.
    - rewrite E27. exact Hm1.
    - rewrite E10. exact Hm2. }
  assert (Rs : DefaultContext.in_range (Dec.sub_exact purchase_price x) = true).
  { apply (in_range_of_value _ (a + -28) (a + 1));
      unfold DefaultContext.Emin, DefaultContext.Emax; try lia;
      rewrite to_Q_sub_exact; fold p;
      rewrite Qabs_pos by lra.
    - rewrite E28. exact Hs1.
    - rewrite E10. exact Hs2. }
  assert (Ru : DefaultContext.in_range (Dec.add_exact purchase_price x) = true).
  { apply (in_range_of_value _ a (a + 2));
      unfold DefaultContext.Emin, DefaultContext.Emax; try lia;
      rewrite to_Q_add_exact; fold p;
      rewrite Qabs_pos by lra.
    - exact Hu1.
    - rewrite E100. exact Hu2. }
  unfold bounds_in_context, DefaultContext.mul, DefaultContext.sub, DefaultContext.add.
  fold ratio. rewrite (fix_in_range _ Rm). cbn [bind]. fold (Dec.mul purchase_price ratio).
  fold x. rewrite (fix_in_range _ Rs), (fix_in_range _ Ru). reflexivity.
Qed.

(** ** The bounds *)

(** C4.  What the code computes with the ratio 0.01 and a buy at 100.00.
    [Config.__init__] reads the ratio with [float], and [Decimal(float)]
    converts the binary value exactly, so the ratio in the product is
    0.01000000000000000020816681711721685132943093776702880859375.  The
    bounds are 98.99999999999999997918331829 and
    101.0000000000000000208166817, not 99.00 and 101.00, and a latest price
    of 101.00 is below the upper bound. *)
Theorem C4_bounds_drift_through_float (getenv : string -> option string)
    (config : Config) (purchase_price : Dec.Decimal) :
  getenv "sales_ratio" = Some "0.01" ->
  Config_init getenv = Ok config ->
  Decimal_of_string "100.00" = Some purchase_price ->
  Decimal_of_float (sales_ratio config)
  = Dec.mk 1000000000000000020816681711721685132943093776702880859375 (-59)
  /\ down_price config purchase_price = Dec.mk 9899999999999999997918331829 (-26)
  /\ up_price config purchase_price = Dec.mk 1010000000000000000208166817 (-25)
  /\ Dec.eqb (down_price config purchase_price) (Dec.mk 9900 (-2)) = false
  /\ Dec.eqb (up_price config purchase_price) (Dec.mk 10100 (-2)) = false
  /\ Dec.geb (Dec.mk 10100 (-2)) (up_price config purchase_price) = false.
Proof.
  intros Henv Hinit Hprice.
  destruct (Config_init_fields getenv config Hinit) as [Hratio _].
  unfold getenv_float in Hratio. rewrite Henv in Hratio.
  assert (Hf : float_of_string "0.01" = Some (Float.mk 5764607523034235 (-59)))
    by (vm_compute; reflexivity).
  rewrite Hf in Hratio. cbn [of_option] in Hratio. injection Hratio as Hratio.
  assert (Hp : Decimal_of_string "100.00" = Some (Dec.mk 10000 (-2)))
    by (vm_compute; reflexivity).
  rewrite Hp in Hprice. injection Hprice as <-.
  unfold down_price, up_price. rewrite <- Hratio.
  repeat split; vm_compute; reflexivity.
Qed.

Lemma C4_witness :
  @down_price sample_config (Dec.mk 10000 (-2))
  = Dec.mk 9899999999999999997918331829 (-26)
  /\ @up_price sample_config (Dec.mk 10000 (-2))
     = Dec.mk 1010000000000000000208166817 (-25).
Proof.
  destruct (C4_bounds_drift_through_float sample_env sample_config
              (Dec.mk 10000 (-2)) eq_refl eq_refl eq_refl)
    as (_ & Hdown & Hup & _).
  split; [exact Hdown | exact Hup].
Defined.

(** C3, as stated, fails.  With the ratio 0.01 and the price 100.00 the lower
    bound is not [P * (1 - r)], whether [r] is 0.01 or the binary64 value
    the configuration holds; and with the ratio [2 ^ -100] and the price 1
    both bounds are equal to the price. *)
Lemma C3_counterexample :
  ((0 < Dec.to_Q (Dec.mk 10000 (-2))
    /\ 0 < Float.to_Q (sales_ratio sample_config) < 1
    /\ ~ Dec.to_Q (down_price sample_config (Dec.mk 10000 (-2)))
         == Dec.to_Q (Dec.mk 10000 (-2)) * (1 - Float.to_Q (sales_ratio sample_config))
    /\ ~ Dec.to_Q (down_price sample_config (Dec.mk 10000 (-2)))
         == Dec.to_Q (Dec.mk 10000 (-2)) * (1 - (1 # 100)))
   /\ (0 < Dec.to_Q Dec.one
       /\ 0 < Float.to_Q (sales_ratio tiny_config) < 1
       /\ Dec.ltb (down_price tiny_config Dec.one) Dec.one = false
       /\ Dec.ltb Dec.one (up_price tiny_config Dec.one) = false))%Q.
Proof.
  repeat split; try (vm_compute; reflexivity);
    intros H; vm_compute in H; discriminate.
Qed.

(** Outside the exponent range the context does otherwise: below it the
    product is rounded to zero at [Etiny] and both bounds are the price;
    above it the sum raises Overflow. *)
Lemma bounds_outside_the_range :
  bounds_in_context sample_config (Dec.mk 1 (-1000026))
  = Ok (Dec.mk 1 (-1000026), Dec.mk 1 (-1000026))
  /\ bounds_in_context half_config (Dec.mk 9 999999) = Raise Overflow.
Proof.
  split; vm_compute; reflexivity.
Qed.

(** C3, amended.  For a purchase price [P > 0] whose first digit has an
    exponent between [Emin + 28] and [Emax - 2], and a ratio [r], the
    binary64 value of the configuration, with [1E-27 <= r <= 1 - 1E-27]: the
    default context computes both bounds without raising; the product
    [P * r] and then the difference and the sum are each rounded to 28
    significant digits, so the lower bound is within [1E-27 * P] of
    [P * (1 - r)] and the upper bound within [2E-27 * P] of [P * (1 + r)];
    they are equal to [P * (1 - r)] and [P * (1 + r)] when the exact product
    and the exact difference (sum) have at most 28 digits; and
    lower bound < P < upper bound. *)
Theorem C3_bounds_up_to_rounding (config : Config) (purchase_price : Dec.Decimal) :
  let r := Float.to_Q (sales_ratio config) in
  let p := Dec.to_Q purchase_price in
  let ratio := Decimal_of_float (sales_ratio config) in
  let lower := down_price config purchase_price in
  let upper := up_price config purchase_price in
  (0 < p)%Q ->
  (2 * Dec.half_ulp <= r)%Q ->
  (r <= 1 - 2 * Dec.half_ulp)%Q ->
  DefaultContext.Emin + 28 <= DefaultContext.adjusted purchase_price ->
  DefaultContext.adjusted purchase_price <= DefaultContext.Emax - 2 ->
  (bounds_in_context config purchase_price = Ok (lower, upper)
   /\ Qabs (Dec.to_Q lower - p * (1 - r)) <= p * (2 * Dec.half_ulp)
   /\ Qabs (Dec.to_Q upper - p * (1 + r)) <= p * (4 * Dec.half_ulp)
   /\ (Dec.fits (Dec.mul_exact purchase_price ratio) = true ->
       (Dec.fits (Dec.sub_exact purchase_price (Dec.mul_exact purchase_price ratio)) = true ->
        Dec.to_Q lower == p * (1 - r))
       /\ (Dec.fits (Dec.add_exact purchase_price (Dec.mul_exact purchase_price ratio)) = true ->
           Dec.to_Q upper == p * (1 + r)))
   /\ Dec.to_Q lower < p < Dec.to_Q upper
   /\ Dec.ltb lower purchase_price = true
   /\ Dec.ltb purchase_price upper = true)%Q.
Proof.
  intros r p ratio lower upper Hp Hr1 Hr2 Ha1 Ha2.
  assert (Hr0 : (0 < r)%Q) by (unfold Dec.half_ulp in Hr1; lra).
  assert (Hr1' : (r < 1)%Q) by (unfold Dec.half_ulp in Hr2; lra).
  split; [exact (bounds_in_range config purchase_price Hp Hr1 Hr2 Ha1 Ha2)|].
  pose proof (to_Q_Decimal_of_float (sales_ratio config)) as Hratio.
  fold ratio r in Hratio.
  set (x := Dec.mul purchase_price ratio).
  assert (Hx : (Qabs (Dec.to_Q x - p * r) <= Dec.half_ulp * Qabs (p * r))%Q).
  { pose proof (fix_error (Dec.mul_exact purchase_price ratio)) as H.
    rewrite to_Q_mul_exact, Hratio in H. exact H. }
  assert (HL : (Qabs (Dec.to_Q lower - (p - Dec.to_Q x))
                <= Dec.half_ulp * Qabs (p - Dec.to_Q x))%Q).
  { pose proof (fix_error (Dec.sub_exact purchase_price x)) as H.
    rewrite to_Q_sub_exact in H. exact H. }
  assert (HU : (Qabs (Dec.to_Q upper - (p + Dec.to_Q x))
                <= Dec.half_ulp * Qabs (p + Dec.to_Q x))%Q).
  { pose proof (fix_error (Dec.add_exact purchase_price x)) as H.
    rewrite to_Q_add_exact in H. exact H. }
  destruct (rounded_bounds p r (Dec.to_Q x) (Dec.to_Q lower) (Dec.to_Q upper)
              Hp Hr0 Hr1' Hx HL HU) as (Hlow & Hup & Hstrict).
  split; [exact Hlow|]. split; [exact Hup|]. split.
  - intros Hfit.
    assert (Ex : (Dec.to_Q x == p * r)%Q).
    { unfold x, Dec.mul. rewrite fix_fits by exact Hfit.
      rewrite to_Q_mul_exact, Hratio. reflexivity. }
    assert (Exx : x = Dec.mul_exact purchase_price ratio)
      by (unfold x, Dec.mul; now rewrite fix_fits).
    split; intros Hfit'.
    + unfold lower, down_price. fold ratio x. unfold Dec.sub.
      rewrite fix_fits by (rewrite Exx; exact Hfit').
      rewrite to_Q_sub_exact, Ex. fold p. ring.
    + unfold upper, up_price. fold ratio x. unfold Dec.add.
      rewrite fix_fits by (rewrite Exx; exact Hfit').
      rewrite to_Q_add_exact, Ex. fold p. ring.
  - destruct (Hstrict Hr1) as [H1 H2].
    split; [split; assumption|].
    split; apply ltb_to_Q; assumption.
Qed.

Lemma C3_witness :
  (bounds_in_context sample_config (Dec.mk 10000 (-2))
   = Ok (Dec.mk 9899999999999999997918331829 (-26),
         Dec.mk 1010000000000000000208166817 (-25))
   /\ Dec.to_Q (down_price sample_config (Dec.mk 10000 (-2))) < Dec.to_Q (Dec.mk 10000 (-2))
   /\ Dec.to_Q (Dec.mk 10000 (-2)) < Dec.to_Q (up_price sample_config (Dec.mk 10000 (-2)))
   /\ Dec.to_Q (down_price half_config (Dec.mk 10000 (-2)))
      == Dec.to_Q (Dec.mk 10000 (-2)) * (1 - Float.to_Q (sales_ratio half_config))
   /\ Dec.to_Q (up_price half_config (Dec.mk 10000 (-2)))
      == Dec.to_Q (Dec.mk 10000 (-2)) * (1 + Float.to_Q (sales_ratio half_config)))%Q.
Proof.
  assert (Hp : (0 < Dec.to_Q (Dec.mk 10000 (-2)))%Q) by (vm_compute; reflexivity).
  destruct (C3_bounds_up_to_rounding sample_config (Dec.mk 10000 (-2)) Hp)
    as (Hctx & _ & _ & _ & [H1 H2] & _).
  { vm_compute. discriminate. }
  { vm_compute. discriminate. }
  { vm_compute. discriminate. }
  { vm_compute. discriminate. }
  destruct (C3_bounds_up_to_rounding half_config (Dec.mk 10000 (-2)) Hp)
    as (_ & _ & _ & Hexact & _).
  { vm_compute. discriminate. }
  { vm_compute. discriminate. }
  { vm_compute. discriminate. }
  { vm_compute. discriminate. }
  destruct Hexact as [Hlow Hup].
  { vm_compute. reflexivity. }
  split; [rewrite Hctx; vm_compute; reflexivity|].
  split; [exact H1|]. split; [exact H2|].
  split; [apply Hlow | apply Hup]; vm_compute; reflexivity.
Defined.

(** * Further properties *)

(** ** The balance lookup and the order call *)

Section ApiBinanceMore.

Context {hm : Hmac}.
Variable config : Config.
Variable currency : Currency.

Lemma filter_balances_filter (asset : string) (l : list json) :
  Forall (fun i => has_field i "asset") l ->
  filter_balances asset l = Ok (filter (asset_is asset) l).
Proof.
  induction 1 as [|i l [a Ha] _ IH]; cbn [filter_balances filter].
  - reflexivity.
  - rewrite Ha, IH. cbn [bind]. unfold asset_is. rewrite Ha.
    destruct a; reflexivity.
Qed.

Lemma filter_balances_raises (asset : string) (l1 l2 : list json) (i : json) (e : PyExc) :
  Forall (fun i => has_field i "asset") l1 ->
  py_getitem i "asset" = Raise e ->
  filter_balances asset (l1 ++ i :: l2) = Raise e.
Proof.
  intros Hl1 Hi. induction Hl1 as [|x l1 [a Ha] _ IH]; cbn [app filter_balances].
  - rewrite Hi. reflexivity.
  - rewrite Ha, IH. reflexivity.
Qed.

(** X1.  [get_balance] sends a GET to [/api/v3/account] under the API key,
    with the parameters [timestamp], [recvWindow] and [signature]; the
    signature is the HMAC-SHA256, under the secret key, of exactly the query
    string of the other two parameters as they are sent. *)
Theorem get_balance_signs_what_it_sends (ts : Z) (response : Response) :
  let request := fst (get_balance config currency ts response) in
  req_method request = GET
  /\ req_url request = base_url config ++ "/api/v3/account"
  /\ req_headers request = [("X-MBX-APIKEY", API_KEY config)]
  /\ map fst (req_params request) = ["timestamp"; "recvWindow"; "signature"]
  /\ query_string (req_params request)
     = "timestamp=" ++ str_of_Z ts ++ "&recvWindow=" ++ str_of_Z (RECV_WINDOW config)
  /\ param "signature" (req_params request)
     = Some (hmac_sha256_hexdigest (secret_key config)
               (query_string (req_params request))).
Proof.
  cbn. repeat split.
Qed.

(** X2.  On a 200 whose [balances] is a list of entries that all have an [asset],
    [get_balance] returns the entries of the asset of the currency, all of
    them and in the order of the answer; an entry is returned exactly when it
    is in the answer with that asset code. *)
Theorem get_balance_returns_matching_entries (ts : Z) (response : Response)
    (j : json) (l : list json) :
  status_code response = 200 ->
  json_loads (text response) = Ok j ->
  py_getitem j "balances" = Ok (JArr l) ->
  Forall (fun i => has_field i "asset") l ->
  snd (get_balance config currency ts response)
  = Ok (Some (filter (asset_is (cur_asset currency)) l))
  /\ (forall i, In i (filter (asset_is (cur_asset currency)) l)
                <-> In i l /\ py_getitem i "asset" = Ok (JStr (cur_asset currency))).
Proof.
  intros Hs Hj Hb Hl. split.
  - unfold get_balance. cbn [snd]. rewrite Hs, Z.eqb_refl, Hj. cbn [bind].
    rewrite Hb. cbn [bind iter_balances].
    rewrite filter_balances_filter by exact Hl. reflexivity.
  - intros i. rewrite filter_In. unfold asset_is.
    split; intros [Hin H]; (split; [exact Hin|]).
    + destruct (py_getitem i "asset") as [a| |]; try discriminate.
      destruct a; try discriminate.
      apply String.eqb_eq in H. now subst.
    + rewrite H. apply String.eqb_refl.
Qed.

(** X3.  One entry of [balances] that has no [asset] (or is not a dict) makes the
    whole lookup raise, a KeyError (a TypeError), also when the entry of the
    currency precedes or follows it. *)
Theorem get_balance_raises_on_malformed_entry (ts : Z) (response : Response)
    (j : json) (l1 l2 : list json) (i : json) (e : PyExc) :
  status_code response = 200 ->
  json_loads (text response) = Ok j ->
  py_getitem j "balances" = Ok (JArr (l1 ++ i :: l2)) ->
  Forall (fun i => has_field i "asset") l1 ->
  py_getitem i "asset" = Raise e ->
  snd (get_balance config currency ts response) = Raise e.
Proof.
  intros Hs Hj Hb Hl1 Hi.
  unfold get_balance. cbn [snd]. rewrite Hs, Z.eqb_refl, Hj. cbn [bind].
  rewrite Hb. cbn [bind iter_balances].
  rewrite (filter_balances_raises _ l1 l2 i e Hl1 Hi). reflexivity.
Qed.

(** X4.  An order that the exchange accepted and filled still ends in an
    exception when the balance lookup for the log line raises: both requests
    have been sent, and [create_order] raises what the lookup raised instead
    of returning the price. *)
Theorem create_order_raises_with_balance_lookup (side : string)
    (price : option Dec.Decimal) (io : OrderIO) (order_data : json) (p : json)
    (e : PyExc) :
  status_code (order_response io) = 200 ->
  json_loads (text (order_response io)) = Ok order_data ->
  order_confirmation order_data ->
  first_fill_price order_data = Ok p ->
  snd (get_balance config currency (balance_time_ms io) (balance_response io)) = Raise e ->
  create_order config currency side price io
  = ([order_request config currency side price (order_time_ms io);
      fst (get_balance config currency (balance_time_ms io) (balance_response io))],
     Raise e).
Proof.
  intros Hs Hj (Hsym & Hid & Hqty & Hside & Hstatus) Hfill Hb.
  unfold create_order. rewrite Hs, Z.eqb_refl, Hj. cbn [bind].
  destruct Hsym as [v1 ->]. destruct Hid as [v2 ->].
  destruct Hqty as [v3 ->]. destruct Hside as [v4 ->].
  destruct Hstatus as [v5 ->]. rewrite Hfill. cbn [bind].
  destruct (get_balance config currency (balance_time_ms io) (balance_response io))
    as [breq bres].
  cbn [fst snd] in *. subst bres. reflexivity.
Qed.

(** X5.  A 200 whose [fills] is an empty list: [create_order] raises IndexError
    while it builds the log line, after the order request and before any
    balance lookup. *)
Theorem create_order_raises_without_fills (side : string)
    (price : option Dec.Decimal) (io : OrderIO) (order_data : json) :
  status_code (order_response io) = 200 ->
  json_loads (text (order_response io)) = Ok order_data ->
  has_field order_data "symbol" ->
  has_field order_data "orderId" ->
  has_field order_data "origQty" ->
  has_field order_data "side" ->
  py_getitem order_data "fills" = Ok (JArr []) ->
  create_order config currency side price io
  = ([order_request config currency side price (order_time_ms io)], Raise IndexError).
Proof.
  intros Hs Hj [v1 H1] [v2 H2] [v3 H3] [v4 H4] Hf.
  unfold create_order. rewrite Hs, Z.eqb_refl, Hj. cbn [bind].
  rewrite H1, H2, H3, H4. cbn [bind]. unfold first_fill_price.
  rewrite Hf. reflexivity.
Qed.

(** X6.  A balance lookup answered with a status other than 200 does not change
    what [create_order] returns for a filled order: the price of the first
    fill, after the two requests. *)
Theorem create_order_ignores_failed_balance_lookup (side : string)
    (price : option Dec.Decimal) (io : OrderIO) (order_data : json)
    (s : string) (d : Dec.Decimal) :
  status_code (order_response io) = 200 ->
  json_loads (text (order_response io)) = Ok order_data ->
  order_confirmation order_data ->
  first_fill_price order_data = Ok (JStr s) ->
  Decimal_of_string s = Some d ->
  status_code (balance_response io) <> 200 ->
  snd (get_balance config currency (balance_time_ms io) (balance_response io)) = Ok None
  /\ create_order config currency side price io
     = ([order_request config currency side price (order_time_ms io);
         fst (get_balance config currency (balance_time_ms io) (balance_response io))],
        Ok d).
Proof.
  intros Hs Hj Hconf Hfill Hd Hb. split.
  - unfold get_balance. cbn [snd].
    destruct (Z.eqb_spec (status_code (balance_response io)) 200);
      [contradiction | reflexivity].
  - apply (create_order_filled config currency side price io order_data s d);
      auto.
    intros H. contradiction.
Qed.

End ApiBinanceMore.

Lemma get_balance_returns_matching_entries_witness :
  snd (@get_balance sample_hmac sample_config btc 1700000000100 (mkResponse 200 account))
  = Ok (Some [JObj [("asset", JStr "BTC"); ("free", JStr "0.001")]]).
Proof.
  apply (@get_balance_returns_matching_entries sample_hmac sample_config btc
           1700000000100 (mkResponse 200 account)
           (JObj [("balances",
                   JArr [JObj [("asset", JStr "BTC"); ("free", JStr "0.001")];
                         JObj [("asset", JStr "USDT"); ("free", JStr "10")]])])
           [JObj [("asset", JStr "BTC"); ("free", JStr "0.001")];
            JObj [("asset", JStr "USDT"); ("free", JStr "10")]]).
  - reflexivity.
  - vm_compute. reflexivity.
  - reflexivity.
  - repeat constructor; eexists; reflexivity.
Defined.

Lemma get_balance_raises_on_malformed_entry_witness :
  snd (@get_balance sample_hmac sample_config btc 1700000000100
         (mkResponse 200 broken_account))
  = Raise KeyError.
Proof.
  apply (@get_balance_raises_on_malformed_entry sample_hmac sample_config btc
           1700000000100 (mkResponse 200 broken_account)
           (JObj [("balances",
                   JArr [JObj [("asset", JStr "BTC")]; JObj [("free", JStr "10")]])])
           [JObj [("asset", JStr "BTC")]] [] (JObj [("free", JStr "10")]) KeyError).
  - reflexivity.
  - vm_compute. reflexivity.
  - reflexivity.
  - repeat constructor; eexists; reflexivity.
  - reflexivity.
Defined.

Lemma create_order_raises_with_balance_lookup_witness :
  snd (@create_order sample_hmac sample_config btc "BUY" None
         (mkOrderIO 1700000000000 (mkResponse 200 (filled_order "BUY" "100.00"))
            1700000000100 (mkResponse 200 broken_account)))
  = Raise KeyError.
Proof.
  rewrite (@create_order_raises_with_balance_lookup sample_hmac sample_config btc
             "BUY" None
             (mkOrderIO 1700000000000 (mkResponse 200 (filled_order "BUY" "100.00"))
                1700000000100 (mkResponse 200 broken_account))
             (JObj [("symbol", JStr "BTCUSDT"); ("orderId", JInt 28);
                    ("origQty", JStr "0.001"); ("side", JStr "BUY");
                    ("status", JStr "FILLED");
                    ("fills", JArr [JObj [("price", JStr "100.00");
                                          ("qty", JStr "0.001")]])])
             (JStr "100.00") KeyError).
  - reflexivity.
  - reflexivity.
  - vm_compute. reflexivity.
  - repeat split; eexists; reflexivity.
  - reflexivity.
  - vm_compute. reflexivity.
Defined.

Lemma create_order_raises_without_fills_witness :
  @create_order sample_hmac sample_config btc "BUY" None
    (mkOrderIO 1700000000000 (mkResponse 200 unfilled_order)
       1700000000100 (mkResponse 200 account))
  = ([@order_request sample_hmac sample_config btc "BUY" None 1700000000000],
     Raise IndexError).
Proof.
  apply (@create_order_raises_without_fills sample_hmac sample_config btc "BUY" None
           (mkOrderIO 1700000000000 (mkResponse 200 unfilled_order)
              1700000000100 (mkResponse 200 account))
           (JObj [("symbol", JStr "BTCUSDT"); ("orderId", JInt 28);
                  ("origQty", JStr "0.001"); ("side", JStr "BUY");
                  ("status", JStr "NEW"); ("fills", JArr [])])).
  - reflexivity.
  - vm_compute. reflexivity.
  - eexists; reflexivity.
  - eexists; reflexivity.
  - eexists; reflexivity.
  - eexists; reflexivity.
  - reflexivity.
Defined.

Lemma create_order_ignores_failed_balance_lookup_witness :
  snd (@create_order sample_hmac sample_config btc "BUY" None
         (mkOrderIO 1700000000000 (mkResponse 200 (filled_order "BUY" "100.00"))
            1700000000100 (mkResponse 500 "Internal error")))
  = Ok (Dec.mk 10000 (-2)).
Proof.
  destruct (@create_order_ignores_failed_balance_lookup sample_hmac sample_config btc
              "BUY" None
              (mkOrderIO 1700000000000 (mkResponse 200 (filled_order "BUY" "100.00"))
                 1700000000100 (mkResponse 500 "Internal error"))
              (JObj [("symbol", JStr "BTCUSDT"); ("orderId", JInt 28);
                     ("origQty", JStr "0.001"); ("side", JStr "BUY");
                     ("status", JStr "FILLED");
                     ("fills", JArr [JObj [("price", JStr "100.00");
                                           ("qty", JStr "0.001")]])])
              "100.00" (Dec.mk 10000 (-2))) as [_ H].
  - reflexivity.
  - vm_compute. reflexivity.
  - repeat split; eexists; reflexivity.
  - reflexivity.
  - reflexivity.
  - cbn. discriminate.
  - rewrite H. reflexivity.
Defined.

(** ** The feed loop *)

Lemma dict_get_has (k : string) (kv : list (string * json)) (v : json) :
  dict_get k kv = Some v -> dict_has k kv = true.
Proof.
  unfold dict_has. revert v.
  induction kv as [|[k' v'] kv IH]; intros v; cbn [dict_get existsb fst].
  - discriminate.
  - destruct (dict_get k kv) as [x|].
    + intros _. rewrite (IH x eq_refl). apply orb_true_r.
    + destruct (String.eqb k' k); [reflexivity | discriminate].
Qed.

Lemma streaming_sleeps (inbox : list Recv) :
  forall cell,
    let '(events, _, r) := streaming cell inbox in
    (count_feed is_feed_sleep events <= List.length (filter is_closed inbox))%nat
    /\ (r = None ->
        count_feed is_feed_sleep events = List.length (filter is_closed inbox)).
Proof.
  induction inbox as [|x inbox IH]; intros cell; cbn [streaming].
  - split; reflexivity.
  - destruct x as [m|].
    + destruct (on_message cell m) as [cell'| |]; cbn [filter is_closed].
      * apply IH.
      * split; [apply Nat.le_0_l | discriminate].
      * split; [apply Nat.le_0_l | discriminate].
    + specialize (IH cell).
      destruct (streaming cell inbox) as [[events cell'] r].
      unfold count_feed in *. cbn [filter is_closed is_feed_sleep List.length].
      destruct IH as [IH1 IH2]. split; [lia|].
      intros H. rewrite (IH2 H). reflexivity.
Qed.

Lemma streaming_app (inbox inbox' : list Recv) :
  forall cell events cell',
    streaming cell inbox = (events, cell', None) ->
    streaming cell (inbox ++ inbox')
    = let '(events', cell'', r) := streaming cell' inbox' in
      ((events ++ events')%list, cell'', r).
Proof.
  induction inbox as [|x inbox IH]; intros cell events cell' H; cbn [app streaming] in *.
  - injection H as <- <-. cbn [app].
    destruct (streaming cell inbox') as [[e c] r]. reflexivity.
  - destruct x as [m|].
    + destruct (on_message cell m) as [c1| |]; try discriminate.
      now apply IH.
    + destruct (streaming cell inbox) as [[e1 c1] r1] eqn:E.
      injection H as <- <- ->.
      rewrite (IH cell e1 c1 E).
      destruct (streaming c1 inbox') as [[e2 c2] r2]. reflexivity.
Qed.

(** X7.  Whatever the websocket delivers, [load_data] opens one connection and
    sends one subscribe message; it sleeps at most once for each
    ConnectionClosed, and exactly once for each as long as no message made it
    raise. *)
Theorem load_data_connects_once (config : Config) (name : string) (inbox : list Recv) :
  let '(events, _, r) := load_data config name inbox in
  count_feed is_connect events = 1%nat
  /\ count_feed is_send events = 1%nat
  /\ (count_feed is_feed_sleep events <= List.length (filter is_closed inbox))%nat
  /\ (r = None ->
      count_feed is_feed_sleep events = List.length (filter is_closed inbox)).
Proof.
  unfold load_data.
  pose proof (streaming_no_connect inbox (price_currency config)) as [Hc Hs].
  pose proof (streaming_sleeps inbox (price_currency config)) as Hsl.
  destruct (streaming (price_currency config) inbox) as [[events cell] r].
  cbn [fst] in *. unfold count_feed in *.
  cbn [filter is_connect is_send is_feed_sleep List.length].
  rewrite Hc, Hs. repeat split; apply Hsl.
Qed.

(** X8.  A message that has the price field [c] but no symbol [s] ends the feed
    loop: the KeyError is not a ConnectionClosed, so it leaves [load_data];
    the cell keeps its value and the messages that follow are not read. *)
Theorem feed_stops_on_message_without_symbol (cell : PyCell) (message : string)
    (kv : list (string * json)) (rest : list Recv) :
  json_loads message = Ok (JObj kv) ->
  dict_has "c" kv = true ->
  dict_get "s" kv = None ->
  streaming cell (Message message :: rest) = ([], cell, Some (Raise KeyError)).
Proof.
  intros Hj Hc Hs. cbn [streaming]. unfold on_message.
  rewrite Hj. cbn [bind py_contains]. rewrite Hc.
  cbn [py_getitem]. rewrite Hs. reflexivity.
Qed.

Lemma feed_stops_on_message_without_symbol_witness :
  streaming a_cell [Message price_only_message; Message ticker_message]
  = ([], a_cell, Some (Raise KeyError)).
Proof.
  apply (feed_stops_on_message_without_symbol a_cell price_only_message
           [("c", JStr "42000.50")] [Message ticker_message]);
    vm_compute; reflexivity.
Defined.

(** X9.  A message whose JSON value is a number, a boolean or null ends the feed
    loop with a TypeError at the test ['c' in message_data]; the cell keeps
    its value and the messages that follow are not read. *)
Theorem feed_stops_on_scalar_message (cell : PyCell) (message : string) (v : json)
    (rest : list Recv) :
  json_loads message = Ok v ->
  is_scalar v = true ->
  streaming cell (Message message :: rest) = ([], cell, Some (Raise TypeError)).
Proof.
  intros Hj Hv. cbn [streaming]. unfold on_message. rewrite Hj.
  destruct v; try discriminate; reflexivity.
Qed.

Lemma feed_stops_on_scalar_message_witness :
  streaming a_cell [Message "1"; Message ticker_message]
  = ([], a_cell, Some (Raise TypeError)).
Proof.
  apply (feed_stops_on_scalar_message a_cell "1" (JInt 1) [Message ticker_message]);
    vm_compute; reflexivity.
Defined.

(** X10.  The cell holds what the last ticker message carried: after any run of
    the loop that has not raised, a message with a symbol [s] and a price
    text [c] leaves the cell at [s] and the decimal of [c], whatever it held
    before, and adds no event. *)
Theorem last_ticker_message_wins (cell cell' : PyCell) (inbox : list Recv)
    (events : list FeedEvent) (message : string) (kv : list (string * json))
    (s : json) (c : string) (price : Dec.Decimal) :
  streaming cell inbox = (events, cell', None) ->
  json_loads message = Ok (JObj kv) ->
  dict_get "s" kv = Some s ->
  dict_get "c" kv = Some (JStr c) ->
  Decimal_of_string c = Some price ->
  streaming cell (inbox ++ [Message message]) = (events, CellDict s price, None).
Proof.
  intros Hrun Hj Hs Hc Hp.
  rewrite (streaming_app inbox [Message message] cell events cell' Hrun).
  cbn [streaming]. unfold on_message. rewrite Hj. cbn [bind py_contains].
  rewrite (dict_get_has "c" kv _ Hc). cbn [py_getitem]. rewrite Hs, Hc.
  cbn [bind Decimal_of_json]. rewrite Hp. cbn [of_option bind].
  rewrite app_nil_r. reflexivity.
Qed.

Lemma last_ticker_message_wins_witness :
  streaming (CellInt 0) ([Message ack_message; ConnectionClosed] ++ [Message ticker_message])
  = ([FeedSleep 2], CellDict (JStr "BTCUSDT") (Dec.mk 4200050 (-2)), None).
Proof.
  apply (last_ticker_message_wins (CellInt 0) (CellInt 0)
           [Message ack_message; ConnectionClosed] [FeedSleep 2] ticker_message
           [("s", JStr "BTCUSDT"); ("c", JStr "42000.50")]
           (JStr "BTCUSDT") "42000.50" (Dec.mk 4200050 (-2)));
    vm_compute; reflexivity.
Defined.

Lemma load_data_connects_once_witness :
  count_feed is_connect
    (fst (fst (load_data sample_config "btcusdt@ticker"
                 [ConnectionClosed; Message ticker_message; ConnectionClosed])))
  = 1%nat
  /\ count_feed is_feed_sleep
       (fst (fst (load_data sample_config "btcusdt@ticker"
                    [ConnectionClosed; Message ticker_message; ConnectionClosed])))
     = 2%nat.
Proof.
  pose proof (load_data_connects_once sample_config "btcusdt@ticker"
                [ConnectionClosed; Message ticker_message; ConnectionClosed]) as H.
  destruct (load_data sample_config "btcusdt@ticker"
              [ConnectionClosed; Message ticker_message; ConnectionClosed])
    as [[events cell] r] eqn:E.
  destruct H as (Hc & _ & _ & Hs).
  split; [exact Hc|]. cbn [fst]. rewrite Hs; [reflexivity|].
  vm_compute in E. injection E as _ _ <-. reflexivity.
Defined.

(** ** The cycle *)

Section HandlerMore.

Context {hm : Hmac}.
Variable config : Config.
Variable currency : Currency.

Lemma polling_orders (io : CycleIO) (down up : Dec.Decimal) (end_timestamp : Z)
    (fuel : nat) :
  forall k,
    count_orders BUY (fst (polling config currency io down up end_timestamp fuel k)) = 0%nat
    /\ (count_orders SELL (fst (polling config currency io down up end_timestamp fuel k))
        <= 1)%nat.
Proof.
  induction fuel as [|fuel IH]; intros k; cbn [polling].
  - split; [reflexivity | apply Nat.le_0_l].
  - destruct (tick_cell (ticks io k)) as [z|asset price].
    + split; [reflexivity | apply Nat.le_0_l].
    + destruct (sell_condition down up end_timestamp price (tick_now (ticks io k))).
      * pose proof (count_orders_create_order config currency BUY SELL (sell_io io)) as Hb.
        pose proof (count_orders_create_order config currency SELL SELL (sell_io io)) as Hs.
        destruct (create_order config currency (SideStatuses_value SELL) None (sell_io io))
          as [requests r].
        cbn [fst] in *. rewrite Hb, Hs. split; [reflexivity | apply Nat.le_refl].
      * specialize (IH (S k)).
        destruct (polling config currency io down up end_timestamp fuel (S k))
          as [events r].
        cbn [fst] in *. exact IH.
Qed.

Lemma task_orders (io : CycleIO) (fuel : nat) :
  count_orders BUY (fst (task_checking_prices config currency io fuel)) = 1%nat
  /\ (count_orders SELL (fst (task_checking_prices config currency io fuel)) <= 1)%nat.
Proof.
  unfold task_checking_prices.
  pose proof (count_orders_create_order config currency BUY BUY (buy_io io)) as Hb.
  pose proof (count_orders_create_order config currency SELL BUY (buy_io io)) as Hs.
  destruct (create_order config currency (SideStatuses_value BUY) None (buy_io io))
    as [requests r].
  cbn [fst] in Hb, Hs.
  assert (Hb' : count_orders BUY (map EvRequest requests) = 1%nat) by exact Hb.
  assert (Hs' : count_orders SELL (map EvRequest requests) = 0%nat) by exact Hs.
  destruct r as [p| |]; cbn [fst]; try (rewrite Hb', Hs'; split; [reflexivity | lia]).
  destruct (Dec.truthy p); cbn [fst]; try (rewrite Hb', Hs'; split; [reflexivity | lia]).
  pose proof (polling_orders io (down_price config p) (up_price config p)
                (start_now io + timedelta_seconds (duration config)) fuel 0%nat) as Hp.
  destruct (polling config currency io (down_price config p) (up_price config p)
              (start_now io + timedelta_seconds (duration config)) fuel 0)
    as [events r'].
  cbn [fst] in *. rewrite !count_orders_app, Hb', Hs'. lia.
Qed.

(** X11.  Whatever the exchange answers and whatever the feed and the clock
    show, a cycle whose deadline is a datetime sends exactly one BUY order
    and at most one SELL order, and the BUY order is the first thing it
    does. *)
Theorem cycle_one_buy_at_most_one_sell (io : CycleIO) (fuel : nat) :
  deadline_defined (start_now io) (duration config) ->
  let events := fst (task_checking_prices config currency io fuel) in
  count_orders BUY events = 1%nat
  /\ (count_orders SELL events <= 1)%nat
  /\ hd_error events
     = Some (EvRequest (order_request config currency (SideStatuses_value BUY) None
                          (order_time_ms (buy_io io)))).
Proof.
  intros _ events. subst events.
  destruct (task_orders io fuel) as [Hb Hs].
  split; [exact Hb|]. split; [exact Hs|].
  unfold task_checking_prices.
  destruct (create_order_requests config currency (SideStatuses_value BUY) None (buy_io io))
    as [E|E];
    destruct (create_order config currency (SideStatuses_value BUY) None (buy_io io))
      as [requests r];
    cbn [fst] in E; subst requests;
    destruct r as [p| |]; try reflexivity;
    destruct (Dec.truthy p); try reflexivity;
    destruct (polling config currency io (down_price config p) (up_price config p)
                (start_now io + timedelta_seconds (duration config)) fuel 0)
      as [events r']; reflexivity.
Qed.

(** With a price in the cell at every poll up to one at which the condition
    holds, the loop sells at that poll or before. *)
Lemma polling_sells_by (io : CycleIO) (down up : Dec.Decimal) (end_timestamp : Z)
    (n : nat) :
  forall (fuel k : nat),
    (forall j, (j <= n)%nat ->
               exists asset price, tick_cell (ticks io (k + j)) = CellDict asset price) ->
    poll_is io down up end_timestamp (k + n) true ->
    (n < fuel)%nat ->
    exists m,
      (m <= n)%nat
      /\ poll_is io down up end_timestamp (k + m) true
      /\ polling config currency io down up end_timestamp fuel k
         = ((repeat (EvSleep 200) m
              ++ map EvRequest
                   (fst (create_order config currency (SideStatuses_value SELL) None
                           (sell_io io))))%list,
            Some (_ <- snd (create_order config currency (SideStatuses_value SELL) None
                              (sell_io io)) ;;
                  Ok tt)).
Proof.
  induction n as [|n IH]; intros fuel k Hpop Hat Hfuel.
  - exists 0%nat. split; [lia|]. split; [exact Hat|].
    apply (polling_sells_at_first_trigger config currency io down up end_timestamp 0);
      [intros j Hj; lia | exact Hat | exact Hfuel].
  - destruct fuel as [|fuel]; [lia|].
    destruct (Hpop 0%nat ltac:(lia)) as (asset & price & Hcell).
    rewrite Nat.add_0_r in Hcell.
    destruct (sell_condition down up end_timestamp price (tick_now (ticks io k))) eqn:Hcond.
    + exists 0%nat. split; [lia|]. split.
      * rewrite Nat.add_0_r. exists asset, price. now split.
      * apply (polling_sells_at_first_trigger config currency io down up end_timestamp 0);
          [intros j Hj; lia | | lia].
        rewrite Nat.add_0_r. exists asset, price. now split.
    + destruct (IH fuel (S k)) as (m & Hm & Hat' & Hrun).
      * intros j Hj. replace (S k + j)%nat with (k + S j)%nat by lia.
        apply Hpop. lia.
      * replace (S k + n)%nat with (k + S n)%nat by lia. exact Hat.
      * lia.
      * exists (S m). split; [lia|]. split.
        -- replace (k + S m)%nat with (S k + m)%nat by lia. exact Hat'.
        -- cbn [polling]. rewrite Hcell, Hcond, Hrun. reflexivity.
Qed.

(** X12.  A cycle whose buy returned a price, whose cell holds a price at every
    poll and whose clock has reached the deadline at the [n]-th poll sells at
    the [n]-th poll at the latest: with a budget of more than [n] polls the
    cycle has ended, with exactly one SELL order after at most [n] sleeps. *)
Theorem cycle_sells_by_deadline (io : CycleIO) (fuel n : nat)
    (purchase_price : Dec.Decimal) :
  snd (create_order config currency (SideStatuses_value BUY) None (buy_io io))
  = Ok purchase_price ->
  Dec.truthy purchase_price = true ->
  (forall j, (j <= n)%nat ->
             exists asset price, tick_cell (ticks io j) = CellDict asset price) ->
  start_now io + timedelta_seconds (duration config) <= tick_now (ticks io n) ->
  (n < fuel)%nat ->
  exists r,
    snd (task_checking_prices config currency io fuel) = Some r
    /\ count_orders SELL (fst (task_checking_prices config currency io fuel)) = 1%nat
    /\ (sleeps_before_order SELL (fst (task_checking_prices config currency io fuel))
        <= n)%nat.
Proof.
  intros Hbuy Htruthy Hpop Hdeadline Hfuel.
  set (down := down_price config purchase_price).
  set (up := up_price config purchase_price).
  set (end_timestamp := start_now io + timedelta_seconds (duration config)) in *.
  assert (Hat : poll_is io down up end_timestamp n true).
  { destruct (Hpop n (Nat.le_refl n)) as (asset & price & Hcell).
    exists asset, price. split; [exact Hcell|].
    unfold sell_condition. apply Z.leb_le in Hdeadline. rewrite Hdeadline.
    apply orb_true_r. }
  destruct (polling_sells_by io down up end_timestamp n fuel 0%nat Hpop Hat Hfuel)
    as (m & Hm & _ & Hrun).
  unfold task_checking_prices. fold end_timestamp.
  pose proof (count_orders_create_order config currency SELL BUY (buy_io io)) as Hb.
  pose proof (sleeps_before_order_other config currency SELL BUY (buy_io io)) as Hskip.
  destruct (create_order config currency (SideStatuses_value BUY) None (buy_io io))
    as [requests r].
  cbn [fst snd] in *. subst r. rewrite Htruthy. fold down up. rewrite Hrun.
  eexists. split; [reflexivity|]. cbn [fst]. split.
  - rewrite !count_orders_app, count_orders_sleeps, Hb.
    rewrite (count_orders_create_order config currency SELL SELL). reflexivity.
  - rewrite Hskip by reflexivity.
    rewrite <- (app_nil_r (map EvRequest _)).
    rewrite (sleeps_before_order_found config currency SELL m (sell_io io) []).
    exact Hm.
Qed.

(** X13.  A sell that the exchange rejects is not tried again: the cycle that
    reached its first trigger at the [n]-th poll ends normally after the one
    SELL request, with nothing after it. *)
Theorem cycle_ends_after_rejected_sell (io : CycleIO) (fuel n : nat)
    (purchase_price : Dec.Decimal) :
  let down := down_price config purchase_price in
  let up := up_price config purchase_price in
  let end_timestamp := start_now io + timedelta_seconds (duration config) in
  let buy := create_order config currency (SideStatuses_value BUY) None (buy_io io) in
  snd buy = Ok purchase_price ->
  Dec.truthy purchase_price = true ->
  (forall j, (j < n)%nat -> poll_is io down up end_timestamp j false) ->
  poll_is io down up end_timestamp n true ->
  (n < fuel)%nat ->
  status_code (order_response (sell_io io)) <> 200 ->
  task_checking_prices config currency io fuel
  = ((map EvRequest (fst buy) ++ repeat (EvSleep 200) n
        ++ [EvRequest (order_request config currency (SideStatuses_value SELL) None
                         (order_time_ms (sell_io io)))])%list,
     Some (Ok tt)).
Proof.
  intros down up end_timestamp buy Hbuy Htruthy Hbefore Hat Hfuel Hsell.
  unfold task_checking_prices. fold buy.
  destruct buy as [requests r]. cbn [fst snd] in *. subst r.
  rewrite Htruthy.
  rewrite (polling_sells_at_first_trigger config currency io _ _ _ n fuel 0%nat);
    auto.
  rewrite (create_order_rejected config currency _ None (sell_io io) Hsell).
  reflexivity.
Qed.

(** X14.  The loop never looks at the asset code in the cell: two cycles that
    differ only in the asset codes their polls show do the same. *)
Theorem cycle_ignores_asset_code (io io' : CycleIO) (fuel : nat) :
  start_now io = start_now io' ->
  buy_io io = buy_io io' ->
  sell_io io = sell_io io' ->
  (forall k, same_prices (ticks io k) (ticks io' k)) ->
  task_checking_prices config currency io fuel
  = task_checking_prices config currency io' fuel.
Proof.
  intros Hstart Hbuy Hsell Hticks.
  assert (Hpoll : forall down up end_timestamp k,
             polling config currency io down up end_timestamp fuel k
             = polling config currency io' down up end_timestamp fuel k).
  { intros down up end_timestamp. induction fuel as [|f IH]; intros k; cbn [polling].
    - reflexivity.
    - destruct (Hticks k) as [Hnow Hcell]. rewrite <- Hnow, <- Hsell.
      destruct (tick_cell (ticks io k)) as [z|a p],
               (tick_cell (ticks io' k)) as [z'|a' p']; try contradiction.
      + reflexivity.
      + subst p'. rewrite IH. reflexivity. }
  unfold task_checking_prices. rewrite <- Hstart, <- Hbuy.
  destruct (create_order config currency (SideStatuses_value BUY) None (buy_io io))
    as [requests [p| |]]; try reflexivity.
  destruct (Dec.truthy p); [|reflexivity].
  rewrite Hpoll. reflexivity.
Qed.

End HandlerMore.

Lemma cycle_sells_by_deadline_witness :
  exists r,
    snd (@task_checking_prices sample_hmac sample_config btc flat_cycle 60) = Some r
    /\ count_orders SELL
         (fst (@task_checking_prices sample_hmac sample_config btc flat_cycle 60))
       = 1%nat
    /\ (sleeps_before_order SELL
          (fst (@task_checking_prices sample_hmac sample_config btc flat_cycle 60))
        <= 50)%nat.
Proof.
  apply (@cycle_sells_by_deadline sample_hmac sample_config btc flat_cycle 60 50
           (Dec.mk 10000 (-2))).
  - reflexivity.
  - reflexivity.
  - intros j _. eexists. eexists. reflexivity.
  - vm_compute. discriminate.
  - lia.
Defined.

Lemma cycle_ends_after_rejected_sell_witness :
  snd (@task_checking_prices sample_hmac sample_config btc unsold_cycle 10)
  = Some (Ok tt)
  /\ count_orders SELL
       (fst (@task_checking_prices sample_hmac sample_config btc unsold_cycle 10))
     = 1%nat.
Proof.
  rewrite (@cycle_ends_after_rejected_sell sample_hmac sample_config btc unsold_cycle
             10 2 (Dec.mk 10000 (-2))).
  - split; reflexivity.
  - reflexivity.
  - reflexivity.
  - intros j Hj. destruct j as [|[|j]]; [| |lia];
      eexists; eexists; split; vm_compute; reflexivity.
  - eexists; eexists; split; vm_compute; reflexivity.
  - lia.
  - cbn. discriminate.
Defined.

Lemma cycle_ignores_asset_code_witness :
  @task_checking_prices sample_hmac sample_config btc rising_cycle 10
  = @task_checking_prices sample_hmac sample_config btc renamed_cycle 10.
Proof.
  apply (@cycle_ignores_asset_code sample_hmac sample_config btc rising_cycle
           renamed_cycle 10).
  - reflexivity.
  - reflexivity.
  - reflexivity.
  - intros k. split; reflexivity.
Defined.

Lemma cycle_one_buy_at_most_one_sell_witness :
  count_orders BUY
    (fst (@task_checking_prices sample_hmac sample_config btc rising_cycle 10))
  = 1%nat
  /\ (count_orders SELL
        (fst (@task_checking_prices sample_hmac sample_config btc rising_cycle 10))
      <= 1)%nat.
Proof.
  destruct (@cycle_one_buy_at_most_one_sell sample_hmac sample_config btc
              rising_cycle 10) as (Hb & Hs & _).
  - unfold deadline_defined, timedelta_seconds. cbn. lia.
  - split; assumption.
Defined.

(** ** The scheduler and the start *)

Section SchedulerFacts.

Context {hm : Hmac}.
Variable config : Config.
Variable currency : Currency.

Lemma count_orders_cons_sleep (side : SideStatuses) (ms : Z) (events : list Event) :
  count_orders side (EvSleep ms :: events) = count_orders side events.
Proof. reflexivity. Qed.

Lemma cycles_orders (ios : nat -> CycleIO) (fuel n : nat) :
  forall k,
    (count_orders SELL (fst (cycles config currency ios fuel n k))
     <= count_orders BUY (fst (cycles config currency ios fuel n k)))%nat
    /\ (count_orders BUY (fst (cycles config currency ios fuel n k)) <= n)%nat.
Proof.
  induction n as [|n IH]; intros k; cbn [cycles].
  - split; apply Nat.le_refl.
  - destruct (task_orders config currency (ios k) fuel) as [Hb Hs].
    destruct (task_checking_prices config currency (ios k) fuel) as [events r].
    cbn [fst] in *.
    destruct r as [[[]| |]|]; cbn [fst]; try lia.
    specialize (IH (S k)).
    destruct (cycles config currency ios fuel n (S k)) as [events' r'].
    cbn [fst] in *.
    rewrite !count_orders_app, !count_orders_cons_sleep. lia.
Qed.

(** X15.  [main] sleeps five seconds before anything else, and at every moment it
    has sent at most as many SELL orders as BUY orders, and at most one BUY
    order for each cycle started. *)
Theorem main_sells_no_more_than_it_buys (ios : nat -> CycleIO) (fuel n : nat) :
  let events := fst (main config currency ios fuel n) in
  hd_error events = Some (EvSleep 5000)
  /\ (count_orders SELL events <= count_orders BUY events)%nat
  /\ (count_orders BUY events <= n)%nat.
Proof.
  unfold main.
  pose proof (cycles_orders ios fuel n 0%nat) as H.
  destruct (cycles config currency ios fuel n 0) as [events r].
  cbn [fst] in *. split; [reflexivity|].
  rewrite !count_orders_cons_sleep. exact H.
Qed.

Lemma task_rejected_buy (io : CycleIO) (fuel : nat) :
  status_code (order_response (buy_io io)) <> 200 ->
  task_checking_prices config currency io fuel
  = ([EvRequest (order_request config currency (SideStatuses_value BUY) None
                   (order_time_ms (buy_io io)))],
     Some (Ok tt)).
Proof.
  intros H. unfold task_checking_prices.
  rewrite (create_order_rejected config currency _ None (buy_io io) H).
  reflexivity.
Qed.

Lemma cycles_rejected (ios : nat -> CycleIO) (fuel n : nat) :
  (forall k, status_code (order_response (buy_io (ios k))) <> 200) ->
  forall k,
    snd (cycles config currency ios fuel n k) = None
    /\ count_orders BUY (fst (cycles config currency ios fuel n k)) = n
    /\ count_orders SELL (fst (cycles config currency ios fuel n k)) = 0%nat
    /\ filter is_sleep (fst (cycles config currency ios fuel n k))
       = repeat (EvSleep (1000 * waiting_next_purchase config)) n.
Proof.
  intros Hrej. induction n as [|n IH]; intros k; cbn [cycles].
  - repeat split.
  - rewrite (task_rejected_buy (ios k) fuel (Hrej k)).
    specialize (IH (S k)).
    destruct (cycles config currency ios fuel n (S k)) as [events r].
    cbn [fst snd app] in *.
    destruct IH as (Hr & Hb & Hs & Hsl).
    split; [exact Hr|].
    unfold count_orders in *.
    cbn [filter is_order_event is_sleep List.length repeat].
    rewrite is_order_value, (is_order_value config currency SELL BUY).
    cbn [SideStatuses_value String.eqb Ascii.eqb Bool.eqb List.length].
    rewrite Hb, Hs, Hsl. repeat split.
Qed.

(** X16.  A rejected buy does not stop the scheduler: when every buy is
    rejected, the deadline of every cycle being a datetime and the rest a
    delay that [asyncio.sleep] takes, [main] goes through any number [n] of
    cycles, each being one BUY order followed by the rest of
    [waiting_next_purchase] seconds, without a SELL order and without a poll,
    and is still running. *)
Theorem main_keeps_buying_after_rejections (ios : nat -> CycleIO) (fuel n : nat) :
  (forall k, deadline_defined (start_now (ios k)) (duration config)) ->
  rest_defined (waiting_next_purchase config) ->
  (forall k, status_code (order_response (buy_io (ios k))) <> 200) ->
  snd (main config currency ios fuel n) = None
  /\ count_orders BUY (fst (main config currency ios fuel n)) = n
  /\ count_orders SELL (fst (main config currency ios fuel n)) = 0%nat
  /\ filter is_sleep (fst (main config currency ios fuel n))
     = (EvSleep 5000 :: repeat (EvSleep (1000 * waiting_next_purchase config)) n)%list.
Proof.
  intros _ _ Hrej. unfold main.
  destruct (cycles_rejected ios fuel n Hrej 0%nat) as (Hr & Hb & Hs & Hsl).
  destruct (cycles config currency ios fuel n 0) as [events r].
  cbn [fst snd] in *.
  rewrite !count_orders_cons_sleep. cbn [filter is_sleep]. rewrite Hsl.
  repeat split; assumption.
Qed.

Lemma cycles_raise (ios : nat -> CycleIO) (fuel : nat) (e : PyExc) (j : nat) :
  forall (n k : nat),
    (forall i, (i < j)%nat ->
               snd (task_checking_prices config currency (ios (k + i)%nat) fuel)
               = Some (Ok tt)) ->
    snd (task_checking_prices config currency (ios (k + j)%nat) fuel) = Some (Raise e) ->
    (j < n)%nat ->
    snd (cycles config currency ios fuel n k) = Some (Raise e)
    /\ count_orders BUY (fst (cycles config currency ios fuel n k)) = S j.
Proof.
  induction j as [|j IH]; intros n k Hbefore Hat Hn;
    (destruct n as [|n]; [lia|]); cbn [cycles].
  - rewrite Nat.add_0_r in Hat.
    destruct (task_orders config currency (ios k) fuel) as [Hb _].
    destruct (task_checking_prices config currency (ios k) fuel) as [events r].
    cbn [fst snd] in *. subst r. cbn [fst snd]. split; [reflexivity | exact Hb].
  - pose proof (Hbefore 0%nat ltac:(lia)) as H0. rewrite Nat.add_0_r in H0.
    destruct (task_orders config currency (ios k) fuel) as [Hb _].
    destruct (task_checking_prices config currency (ios k) fuel) as [events r].
    cbn [fst snd] in *. subst r.
    destruct (IH n (S k)) as [Hr Hc].
    + intros i Hi. replace (S k + i)%nat with (k + S i)%nat by lia.
      apply Hbefore. lia.
    + replace (S k + j)%nat with (k + S j)%nat by lia. exact Hat.
    + lia.
    + destruct (cycles config currency ios fuel n (S k)) as [events' r'].
      cbn [fst snd] in *. split; [exact Hr|].
      rewrite count_orders_app, count_orders_cons_sleep, Hb, Hc. reflexivity.
Qed.

(** X17.  What a cycle raises ends the scheduler: the deadlines being
    datetimes and the rest a delay that [asyncio.sleep] takes, when the
    cycles before the [j]-th returned and the [j]-th raises, [main] raises
    the same exception, and however many cycles it is given it has sent
    [j + 1] BUY orders: no cycle follows. *)
Theorem main_stops_when_a_cycle_raises (ios : nat -> CycleIO) (fuel n j : nat)
    (e : PyExc) :
  (forall i, (i <= j)%nat -> deadline_defined (start_now (ios i)) (duration config)) ->
  rest_defined (waiting_next_purchase config) ->
  (forall i, (i < j)%nat ->
             snd (task_checking_prices config currency (ios i) fuel) = Some (Ok tt)) ->
  snd (task_checking_prices config currency (ios j) fuel) = Some (Raise e) ->
  (j < n)%nat ->
  snd (main config currency ios fuel n) = Some (Raise e)
  /\ count_orders BUY (fst (main config currency ios fuel n)) = S j.
Proof.
  intros _ _ Hbefore Hat Hn. unfold main.
  destruct (cycles_raise ios fuel e j n 0%nat Hbefore Hat Hn) as [Hr Hc].
  destruct (cycles config currency ios fuel n 0) as [events r].
  cbn [fst snd] in *. rewrite count_orders_cons_sleep. split; assumption.
Qed.

End SchedulerFacts.

Lemma main_keeps_buying_after_rejections_witness :
  count_orders BUY (fst (@main sample_hmac sample_config btc (fun _ => rejected_cycle) 10 3))
  = 3%nat
  /\ count_orders SELL
       (fst (@main sample_hmac sample_config btc (fun _ => rejected_cycle) 10 3))
     = 0%nat.
Proof.
  destruct (@main_keeps_buying_after_rejections sample_hmac sample_config btc
              (fun _ => rejected_cycle) 10 3) as (_ & Hb & Hs & _).
  - intros k. unfold deadline_defined, timedelta_seconds. cbn. lia.
  - unfold rest_defined. cbn. lia.
  - intros k. cbn. discriminate.
  - split; assumption.
Defined.

Lemma main_stops_when_a_cycle_raises_witness :
  snd (@main sample_hmac sample_config btc
         (fun k => match k with O => rising_cycle | _ => stalled_cycle end) 10 5)
  = Some (Raise TypeError)
  /\ count_orders BUY
       (fst (@main sample_hmac sample_config btc
               (fun k => match k with O => rising_cycle | _ => stalled_cycle end) 10 5))
     = 2%nat.
Proof.
  apply (@main_stops_when_a_cycle_raises sample_hmac sample_config btc
           (fun k => match k with O => rising_cycle | _ => stalled_cycle end)
           10 5 1 TypeError).
  - intros i Hi. unfold deadline_defined, timedelta_seconds.
    destruct i as [|i]; cbn; lia.
  - unfold rest_defined. cbn. lia.
  - intros i Hi. replace i with 0%nat by lia. vm_compute. reflexivity.
  - vm_compute. reflexivity.
  - lia.
Defined.

(** X18.  [start] goes on with an entry of the catalogue exactly for the inputs 1,
    2 and 3; for any other input line the default of [get] is a str, and
    [start] raises a TypeError at [currency["name"]], before it has created
    the feed task or the trading task. *)
Theorem start_raises_off_the_catalogue (index : string) :
  match start_subscription index with
  | Ok (c, name) =>
      In (index, c) data_currency /\ name = cur_name c
      /\ (index = "1" \/ index = "2" \/ index = "3")
  | Raise e =>
      e = TypeError /\ index <> "1" /\ index <> "2" /\ index <> "3"
  | Unmodelled => False
  end.
Proof.
  unfold start_subscription, select_currency, data_currency.
  cbn [catalogue_get].
  destruct (String.eqb_spec "1" index) as [<-|H1].
  - cbn. intuition.
  - destruct (String.eqb_spec "2" index) as [<-|H2].
    + cbn. intuition.
    + destruct (String.eqb_spec "3" index) as [<-|H3].
      * cbn. intuition.
      * repeat split; congruence.
Qed.
